(** * TorizonCore Builder: device-tree overlay commands, host resolution and
    kernel discovery

  A shallow embedding of three pieces of the Python sources:

  - [tcbuilder/backend/common.py]: [resolve_hostname];
  - [tcbuilder/backend/ostree.py]: [ls] and [get_kernel_version];
  - [tcbuilder/cli/dto.py]: [dto_apply], [dto_remove_single],
    [dto_remove_all].

  The first part of the file holds the definitions, the second part the
  statements proved about them. *)

From Stdlib Require Import Ascii String ZArith Lia.
From stdpp Require Import base option list gmap strings.

(* ================================================================== *)
(** * Part I: definitions                                              *)
(* ================================================================== *)

(** ** Python strings *)

Module pystr.

(** ["\n"] and the double quote, which have no literal notation. *)
Definition nl : string := String "010"%char EmptyString.
Definition dquote : string := String "034"%char EmptyString.

(** [s.startswith(p)] *)
Definition startswith (s p : string) : bool := String.prefix p s.

(** [s.endswith(suf)]: some suffix of [s] is [suf]. *)
Fixpoint endswith (s suf : string) : bool :=
  String.eqb s suf ||
  match s with
  | EmptyString => false
  | String _ s' => endswith s' suf
  end.

(** [sub in s]: [sub] starts at some position of [s]. *)
Fixpoint contains (sub s : string) : bool :=
  String.prefix sub s ||
  match s with
  | EmptyString => false
  | String _ s' => contains sub s'
  end.

(** [c in s] for a single character. *)
Fixpoint has_char (c : ascii) (s : string) : bool :=
  match s with
  | EmptyString => false
  | String a s' => Ascii.eqb a c || has_char c s'
  end.

(** [sep.join(l)] *)
Definition join (sep : string) (l : list string) : string :=
  String.concat sep l.

(** [s.rsplit(c, 1)] for a character that occurs in [s]: the text before
    the last [c] and the text after it; [None] when [c] does not occur
    ([s.rfind(c) == -1]). *)
Fixpoint rsplit_char (c : ascii) (s : string) : option (string * string) :=
  match s with
  | EmptyString => None
  | String a s' =>
      match rsplit_char c s' with
      | Some (before, after) => Some (String a before, after)
      | None => if Ascii.eqb a c then Some (EmptyString, s') else None
      end
  end.

(** [s == c * len(s)] *)
Fixpoint all_char (c : ascii) (s : string) : bool :=
  match s with
  | EmptyString => true
  | String a s' => Ascii.eqb a c && all_char c s'
  end.

(** [s.rstrip(c)] *)
Fixpoint rstrip_char (c : ascii) (s : string) : string :=
  match s with
  | EmptyString => EmptyString
  | String a s' =>
      match rstrip_char c s' with
      | EmptyString => if Ascii.eqb a c then EmptyString else String a EmptyString
      | r => String a r
      end
  end.

(** [list.remove(x)]: drops the first occurrence of [x]. *)
Fixpoint list_remove (x : string) (l : list string) : list string :=
  match l with
  | [] => []
  | y :: l' => if String.eqb y x then l' else y :: list_remove x l'
  end.

(** [x in l] *)
Definition list_in (x : string) (l : list string) : bool :=
  bool_decide (x ∈ l).

(** [s.split(c)] for a single character. *)
Fixpoint split_char (c : ascii) (s : string) : list string :=
  match s with
  | EmptyString => [EmptyString]
  | String a s' =>
      if Ascii.eqb a c then EmptyString :: split_char c s'
      else match split_char c s' with
           | [] => [String a EmptyString]
           | w :: ws => String a w :: ws
           end
  end.

(** [s[len(p):]] when [s.startswith(p)]. *)
Fixpoint strip_prefix (p s : string) : option string :=
  match p with
  | EmptyString => Some s
  | String a p' =>
      match s with
      | EmptyString => None
      | String b s' => if Ascii.eqb a b then strip_prefix p' s' else None
      end
  end.

(** [s != ""] *)
Definition nonempty (s : string) : bool := negb (String.eqb s EmptyString).

End pystr.

(** ** [os.path] on POSIX *)

Module posixpath.
Import pystr.

Definition sep : ascii := "/"%char.
Definition extsep : ascii := "."%char.

(** [os.path.split] before the head is stripped:
    [i = p.rfind('/') + 1; head, tail = p[:i], p[i:]]. *)
Definition split_at_sep (p : string) : string * string :=
  match rsplit_char sep p with
  | Some (before, after) => (before +:+ String sep EmptyString, after)
  | None => (EmptyString, p)
  end.

(** [os.path.basename(p)] *)
Definition basename (p : string) : string := snd (split_at_sep p).

(** [os.path.dirname(p)]: the head, without its trailing slashes unless it
    consists of slashes only. *)
Definition dirname (p : string) : string :=
  let head := fst (split_at_sep p) in
  if negb (String.eqb head EmptyString) && negb (all_char sep head)
  then rstrip_char sep head
  else head.

(** [os.path.join(a, b)]: an absolute [b] replaces [a]. *)
Definition join (a b : string) : string :=
  if startswith b (String sep EmptyString) then b
  else if String.eqb a EmptyString || endswith a (String sep EmptyString)
       then a +:+ b
       else a +:+ String sep EmptyString +:+ b.

(** [os.path.splitext(p)]: the extension starts at the last dot of the
    last path component, leading dots of that component not counted. *)
Definition splitext (p : string) : string * string :=
  let (head, tail) := split_at_sep p in
  match rsplit_char extsep tail with
  | Some (before, after) =>
      if all_char extsep before then (p, EmptyString)
      else (head +:+ before, String extsep after)
  | None => (p, EmptyString)
  end.

End posixpath.

(** ** [tcbuilder/backend/common.py]: host resolution *)

Module common.
Import pystr.

Inductive error :=
| TorizonCoreBuilderError (msg : string)
| DnsException (name : string).

(** One call of [dns.resolver.Resolver.query], with the resolver's
    configuration. *)
Record mdns_query := {
  q_nameservers : list string;
  q_port : Z;
  q_name : string;
  q_rdtype : string;
  q_lifetime : Z;
  q_source : option string
}.

(** What the query call does: it returns an answer (the text of its
    records; dnspython may also hand back no object), or raises
    [dns.exception.Timeout], or raises another exception. *)
Inductive query_outcome :=
| Answer (records : list string)
| NoAnswerObject
| RaisesTimeout
| RaisesOther (name : string).

(** Programs that talk to the two name services. [GetHostByName h k] calls
    [socket.gethostbyname(h)]; its reply is [None] when the call raises
    [socket.gaierror]. *)
Inductive io (A : Type) :=
| Ret (a : A)
| Raise (e : error)
| GetHostByName (hostname : string) (k : option string -> io A)
| Query (q : mdns_query) (k : query_outcome -> io A).
Arguments Ret {A} a.
Arguments Raise {A} e.
Arguments GetHostByName {A} hostname k.
Arguments Query {A} q k.

Definition mdns_hostname_of (hostname : string) : string :=
  if endswith hostname ".local" then hostname else hostname +:+ ".local".

Definition resolve_failed_msg (hostname : string) : string :=
  "Resolving hostname " +:+ dquote +:+ hostname +:+ dquote +:+ " failed.".

Definition mdns_failed_msg (mdns_hostname : string) : string :=
  "Resolving hostname " +:+ dquote +:+ mdns_hostname +:+ dquote +:+
  " using mDNS failed.".

Definition mdns_no_answer_msg : string :=
  "Resolving mDNS address failed with no answer".

Definition resolve_hostname (hostname : string) (mdns_source : option string)
  : io (string * bool) :=
  GetHostByName hostname (fun r =>
    match r with
    | Some ip_addr => Ret (ip_addr, false)
    | None =>
        if negb (endswith hostname ".local") && contains "." hostname
        then Raise (TorizonCoreBuilderError (resolve_failed_msg hostname))
        else
          let mdns_hostname := mdns_hostname_of hostname in
          Query {| q_nameservers := ["224.0.0.251"]; q_port := 5353;
                   q_name := mdns_hostname; q_rdtype := "A";
                   q_lifetime := 3; q_source := mdns_source |}
            (fun addr =>
               match addr with
               | Answer (a :: _) => Ret (a, true)
               | Answer [] | NoAnswerObject =>
                   Raise (TorizonCoreBuilderError mdns_no_answer_msg)
               | RaisesTimeout =>
                   Raise (TorizonCoreBuilderError (mdns_failed_msg mdns_hostname))
               | RaisesOther name => Raise (DnsException name)
               end)
    end).

(** Running a program against a network: the calls made, in order, and
    the result. *)
Inductive event :=
| ev_gethostbyname (hostname : string)
| ev_query (q : mdns_query).

Record network := {
  gethostbyname : string -> option string;
  resolver_query : mdns_query -> query_outcome
}.

Fixpoint run {A} (net : network) (p : io A) : list event * (error + A) :=
  match p with
  | Ret a => ([], inr a)
  | Raise e => ([], inl e)
  | GetHostByName h k =>
      let (tr, r) := run net (k (gethostbyname net h)) in
      (ev_gethostbyname h :: tr, r)
  | Query q k =>
      let (tr, r) := run net (k (resolver_query net q)) in
      (ev_query q :: tr, r)
  end.

Definition is_query (e : event) : bool :=
  match e with ev_query _ => true | ev_gethostbyname _ => false end.

End common.

(** ** [tcbuilder/backend/ostree.py]: listing a commit, kernel discovery *)

Module ostree.
Import pystr.

Inductive error :=
| TorizonCoreBuilderError (msg : string)
| PathNotExistError (msg : string)
| GError (msg : string).

Inductive gio_file_type :=
| DIRECTORY | MOUNTABLE | REGULAR | SHORTCUT | SPECIAL | SYMBOLIC_LINK | UNKNOWN.

(** The file tree of a commit: a directory lists named children, anything
    else is a leaf of some file type. *)
#[local] Unset Elimination Schemes.
Inductive tree :=
| Leaf (ty : gio_file_type)
| Dir (children : list (string * tree)).
#[local] Set Elimination Schemes.

(** [repo.read_commit(commit)]: the root of the commit, if the repository
    has it. *)
Definition repo := string -> option tree.

Definition get_file_type (t : tree) : gio_file_type :=
  match t with
  | Leaf ty => ty
  | Dir _ => DIRECTORY
  end.

(** The [else] branch of the source (an unknown file type raises) has no
    counterpart: the seven values are all that the enumeration has. *)
Definition _convert_gio_file_type (gio_file_type : gio_file_type) : string :=
  match gio_file_type with
  | DIRECTORY => "directory"
  | MOUNTABLE => "mountable"
  | REGULAR => "regular"
  | SHORTCUT => "shortcut"
  | SPECIAL => "special"
  | SYMBOLIC_LINK => "symbolic_link"
  | UNKNOWN => "unknown"
  end.

(** The entries [ls] returns: [{"name": ..., "type": ...}]. *)
Record file_info := { name : string; type : string }.

Fixpoint get_child (n : string) (children : list (string * tree)) : option tree :=
  match children with
  | [] => None
  | (m, t) :: rest => if String.eqb m n then Some t else get_child n rest
  end.

(** [root.resolve_relative_path(path)] followed by [query_exists()], on the
    components of the path. *)
Fixpoint resolve_relative_path (root : tree) (components : list string) : option tree :=
  match components with
  | [] => Some root
  | c :: rest =>
      match root with
      | Dir children =>
          match get_child c children with
          | Some t => resolve_relative_path t rest
          | None => None
          end
      | Leaf _ => None
      end
  end.

(** [os.path.realpath(path)] for an absolute path, as far as it concerns the
    commit: the components, empty ones and ["."] dropped. (Links of the host
    file system and [".."] play no part: the paths [get_kernel_version]
    builds have neither.) *)
Definition realpath (path : string) : list string :=
  List.filter (fun c => nonempty c && negb (String.eqb c "."))
              (split_char "/" path).

Definition ls (repo : repo) (path : string) (commit : string)
  : error + list file_info :=
  let path := realpath path in
  match repo commit with
  | None => inl (TorizonCoreBuilderError ("Error couldn't reat commit: " +:+ commit))
  | Some root =>
      match resolve_relative_path root path with
      | Some (Dir children) =>
          inr (map (fun '(n, t) =>
                      {| name := n;
                         type := _convert_gio_file_type (get_file_type t) |})
                   children)
      | Some (Leaf _) => inl (GError "Not a directory")
      | None =>
          inl (PathNotExistError
                 ("path /" +:+ join "/" path +:+ " does not exist"))
      end
  end.

Definition is_directory (file : file_info) : bool :=
  String.eqb (type file) "directory".

Definition is_vmlinuz (file : file_info) : bool :=
  String.eqb (name file) "vmlinuz".

(** The [for module_dir in module_dirs] loop with its [break]. *)
Fixpoint find_kernel_dir (repo : repo) (commit : string)
    (module_dirs : list file_info) : error + string :=
  match module_dirs with
  | [] => inr EmptyString
  | module_dir :: rest =>
      let directory_name := name module_dir in
      match ls repo ("/usr/lib/modules/" +:+ directory_name) commit with
      | inl e => inl e
      | inr files =>
          if existsb is_vmlinuz files then inr directory_name
          else find_kernel_dir repo commit rest
      end
  end.

Definition get_kernel_version (repo : repo) (commit : string) : error + string :=
  match ls repo "/usr/lib/modules" commit with
  | inl e => inl e
  | inr module_files =>
      let module_dirs := List.filter is_directory module_files in
      find_kernel_dir repo commit module_dirs
  end.

(** A listed module directory in which [ls] finds a [vmlinuz] entry. *)
Definition holds_vmlinuz (repo : repo) (commit : string) (d : file_info) : Prop :=
  exists files,
    ls repo ("/usr/lib/modules/" +:+ name d) commit = inr files /\
    exists f, f ∈ files /\ name f = "vmlinuz".

(** A listed module directory that [ls] can enumerate and that has no
    [vmlinuz] entry. *)
Definition lacks_vmlinuz (repo : repo) (commit : string) (d : file_info) : Prop :=
  exists files,
    ls repo ("/usr/lib/modules/" +:+ name d) commit = inr files /\
    forall f, f ∈ files -> name f ≠ "vmlinuz".

(** The children of [/usr/lib/modules] in a commit, and what makes them
    the entries of a directory of a file system: the names are file names,
    no name is used twice, and what reports the file type of a directory
    is a directory. *)
Definition modules_children (repo : repo) (commit : string)
  : option (list (string * tree)) :=
  match repo commit with
  | Some root =>
      match resolve_relative_path root ["usr"; "lib"; "modules"] with
      | Some (Dir children) => Some children
      | _ => None
      end
  | None => None
  end.

Definition file_name (n : string) : Prop :=
  n ≠ "" /\ n ≠ "." /\ has_char "/" n = false.

Definition directory_entries (children : list (string * tree)) : Prop :=
  NoDup (map fst children)
  /\ Forall (fun c => file_name (fst c) /\ snd c ≠ Leaf DIRECTORY) children.

End ostree.

(** ** [tcbuilder/cli/dto.py]: applying and removing overlays *)

Module dto_cli.
Import pystr.

(** *** The files the commands touch

    The commands work in three directories: the overlays directory of the
    changes tree, [<dt_changes_dir>/<kernel subdir>/overlays]; the overlays
    directory of the unpacked base image; and the directory of temporary
    files. A path is the directory it points into and the name of the file
    there. The only test the source makes on a path,
    [dtob_path.startswith(dt_changes_dir)], asks whether it points into the
    changes tree ([path_in_changes]). *)
Inductive path :=
| InChanges (basename : string)
| InBase (basename : string)
| InTmp (n : nat).

Definition path_in_changes (p : path) : bool :=
  match p with
  | InChanges _ => true
  | InBase _ | InTmp _ => false
  end.

(** The external tools called, in order: the device-tree compiler and the
    overlay test-apply tool. *)
Inductive tool_call :=
| call_build_dts (dtos_path : string) (include_dirs : list string) (out : path)
| call_modify_dtb (dtb_path : string) (overlays : list path) (out : path).

(** The working tree and its surroundings. [overlays_txt] is the content of
    [<dt_changes_dir>/<kernel subdir>/overlays.txt], if the file exists;
    [changes_overlays] the files of the overlays directory of the changes
    tree, if the directory exists; [tmp_files] the temporary files made so
    far, by number ([None]: moved away or removed). *)
Record state := {
  unpack_executed : bool;
  image_type : string;
  current_dtb : string * bool;
  base_overlays : gmap string string;
  overlays_txt : option string;
  changes_overlays : option (gmap string string);
  tmp_files : list (option string);
  calls : list tool_call
}.

Definition set_overlays_txt (v : option string) (st : state) : state :=
  {| unpack_executed := unpack_executed st; image_type := image_type st;
     current_dtb := current_dtb st; base_overlays := base_overlays st;
     overlays_txt := v; changes_overlays := changes_overlays st;
     tmp_files := tmp_files st; calls := calls st |}.

Definition set_changes_overlays (v : option (gmap string string)) (st : state) : state :=
  {| unpack_executed := unpack_executed st; image_type := image_type st;
     current_dtb := current_dtb st; base_overlays := base_overlays st;
     overlays_txt := overlays_txt st; changes_overlays := v;
     tmp_files := tmp_files st; calls := calls st |}.

Definition set_base_overlays (v : gmap string string) (st : state) : state :=
  {| unpack_executed := unpack_executed st; image_type := image_type st;
     current_dtb := current_dtb st; base_overlays := v;
     overlays_txt := overlays_txt st; changes_overlays := changes_overlays st;
     tmp_files := tmp_files st; calls := calls st |}.

Definition set_tmp_files (v : list (option string)) (st : state) : state :=
  {| unpack_executed := unpack_executed st; image_type := image_type st;
     current_dtb := current_dtb st; base_overlays := base_overlays st;
     overlays_txt := overlays_txt st; changes_overlays := changes_overlays st;
     tmp_files := v; calls := calls st |}.

Definition set_calls (v : list tool_call) (st : state) : state :=
  {| unpack_executed := unpack_executed st; image_type := image_type st;
     current_dtb := current_dtb st; base_overlays := base_overlays st;
     overlays_txt := overlays_txt st; changes_overlays := changes_overlays st;
     tmp_files := tmp_files st; calls := v |}.

(** *** Errors and the command monad *)

(** [SystemExit code logged]: the command logged the error lines [logged]
    and called [sys.exit(code)]. *)
Inductive error :=
| SystemExit (code : Z) (logged : list string)
| InvalidDataError (msg : string)
| InvalidOperation (msg : string)
| NotFound (basename : string)
| FileNotFoundError (p : path)
| AssertionError (msg : string).

(** A command threads the state and ends in a value or an error; the state
    reached is kept in both cases. *)
Definition M (A : Type) : Type := state -> state * (error + A).

Definition ret {A} (a : A) : M A := fun st => (st, inr a).

Definition raise {A} (e : error) : M A := fun st => (st, inl e).

Definition bind {A B} (m : M A) (k : A -> M B) : M B :=
  fun st =>
    match m st with
    | (st', inr a) => k a st'
    | (st', inl e) => (st', inl e)
    end.

Notation "'let*' x ':=' m 'in' k" := (bind m (fun x => k))
  (at level 10, x name, m at level 100, k at level 200).
Notation "m '>>' k" := (bind m (fun _ => k))
  (at level 100, k at level 200, right associativity).

Definition gets {A} (f : state -> A) : M A := fun st => (st, inr (f st)).

Definition modify (f : state -> state) : M unit := fun st => (f st, inr tt).

(** [log.error(line) ...; sys.exit(1)] *)
Definition sys_exit {A} (logged : list string) : M A :=
  raise (SystemExit 1 logged).

(** *** File operations *)

Definition read_file (p : path) (st : state) : option string :=
  match p with
  | InChanges b => changes_overlays st ≫= (fun d => d !! b)
  | InBase b => base_overlays st !! b
  | InTmp n => mjoin (tmp_files st !! n)
  end.

(** Writing needs the directory to exist. *)
Definition write_file (p : path) (content : string) : M unit :=
  fun st =>
    match p with
    | InChanges b =>
        match changes_overlays st with
        | Some d => (set_changes_overlays (Some (<[b := content]> d)) st, inr tt)
        | None => (st, inl (FileNotFoundError p))
        end
    | InBase b => (set_base_overlays (<[b := content]> (base_overlays st)) st, inr tt)
    | InTmp n => (set_tmp_files (<[n := Some content]> (tmp_files st)) st, inr tt)
    end.

Definition delete_file (p : path) (st : state) : state :=
  match p with
  | InChanges b => set_changes_overlays (delete b <$> changes_overlays st) st
  | InBase b => set_base_overlays (delete b (base_overlays st)) st
  | InTmp n => set_tmp_files (<[n := None]> (tmp_files st)) st
  end.

(** [os.remove(path)] *)
Definition os_remove (p : path) : M unit :=
  fun st =>
    match read_file p st with
    | Some _ => (delete_file p st, inr tt)
    | None => (st, inl (FileNotFoundError p))
    end.

(** Opening a file for reading. *)
Definition read_or_fail (p : path) : M string :=
  fun st =>
    match read_file p st with
    | Some content => (st, inr content)
    | None => (st, inl (FileNotFoundError p))
    end.

(** [shutil.move(src, dst)] of a file onto a file name. *)
Definition shutil_move (src dst : path) : M unit :=
  let* content := read_or_fail src in
  write_file dst content >>
  modify (delete_file src).

(** [tempfile.NamedTemporaryFile(delete=False)], closed at once: a new,
    empty file that stays. *)
Definition NamedTemporaryFile : M path :=
  fun st =>
    (set_tmp_files (tmp_files st ++ [Some EmptyString]) st,
     inr (InTmp (length (tmp_files st)))).

(** [os.makedirs(dtob_target_dir, exist_ok=True)] *)
Definition os_makedirs_overlays : M unit :=
  modify (fun st =>
            match changes_overlays st with
            | Some _ => st
            | None => set_changes_overlays (Some ∅) st
            end).

(** [shutil.rmtree(dtob_target_dir, ignore_errors=True)] *)
Definition shutil_rmtree_overlays : M unit :=
  modify (set_changes_overlays None).

(** [with open(overlays_txt_target_path, "w") as f: f.write(content)]. The
    directory of the file is made beforehand in each command
    ([os.makedirs] of it or of its [overlays] subdirectory); it is not a
    component of the state. *)
Definition write_overlays_txt (content : string) : M unit :=
  modify (set_overlays_txt (Some content)).

(** The line the commands write:
    ["fdt_overlays=" + " ".join(basenames) + "\n"]. *)
Definition overlays_txt_line (basenames : list string) : string :=
  "fdt_overlays=" +:+ join " " basenames +:+ nl.

(** *** Backend helpers that are not among the sources

    [tcbuilder.backend.dt], [tcbuilder.backend.dto] and the two image checks
    of [tcbuilder.backend.common] are called by the commands but are not in
    the files at hand. *)

(** Modelled from the spec: [images_unpack_executed] is missing. "Working
    tree must have completed an images unpack step [...] fail with
    InvalidOperation otherwise". *)
Definition images_unpack_executed : M unit :=
  fun st =>
    if unpack_executed st then (st, inr tt)
    else (st, inl (InvalidOperation "images unpack was not executed")).

(** Modelled from the spec: [unpacked_image_type] is missing; it reports the
    type of the unpacked image. *)
Definition unpacked_image_type : M string := gets image_type.

(** Modelled from the spec: the reader of the manifest is missing. The
    manifest is "a single directive line enumerating all basenames
    space-separated", [fdt_overlays=<space-separated basenames>\n], whose
    "empty value is valid and means no overlays applied". *)
Fixpoint find_directive (lines : list string) : option string :=
  match lines with
  | [] => None
  | line :: rest =>
      match strip_prefix "fdt_overlays=" line with
      | Some value => Some value
      | None => find_directive rest
      end
  end.

Definition parse_overlays_txt (content : string) : list string :=
  match find_directive (split_char "010" content) with
  | Some value => List.filter nonempty (split_char " " value)
  | None => []
  end.

(** Modelled from the spec: [dto.get_applied_overlays_base_names] is
    missing. "list_applied: read manifest; empty sequence if no manifest
    exists". *)
Definition applied_overlays (st : state) : list string :=
  match overlays_txt st with
  | Some content => parse_overlays_txt content
  | None => []
  end.

Definition get_applied_overlays_base_names : M (list string) :=
  gets applied_overlays.

(** Modelled from the spec: [dto.find_path_to_overlay] is missing.
    "find_blob_path: search staged (not-yet-unioned) overlay directory
    first, else the base-image overlay directory; fail with NotFound if
    absent in both". It only looks the file up. *)
Definition locate_overlay (st : state) (basename : string) : error + path :=
  match read_file (InChanges basename) st with
  | Some _ => inr (InChanges basename)
  | None =>
      match read_file (InBase basename) st with
      | Some _ => inr (InBase basename)
      | None => inl (NotFound basename)
      end
  end.

Definition find_path_to_overlay (basename : string) : M path :=
  fun st => (st, locate_overlay st basename).

(** Modelled from the spec: [dto.get_applied_overlay_paths] is missing; it
    locates each of the given basenames, in order, and fails at the first
    that is in neither directory. *)
Fixpoint locate_overlays (st : state) (base_names : list string)
  : error + list path :=
  match base_names with
  | [] => inr []
  | b :: rest =>
      match locate_overlay st b with
      | inl e => inl e
      | inr p =>
          match locate_overlays st rest with
          | inl e => inl e
          | inr ps => inr (p :: ps)
          end
      end
  end.

Definition get_applied_overlay_paths (base_names : list string) : M (list path) :=
  fun st => (st, locate_overlays st base_names).

(** Modelled from the spec: [dt.get_current_dtb_path] is missing; it
    answers the path of the device-tree blob of the image and whether the
    match is exact. The answer is a datum of the unpacked image. *)
Definition get_current_dtb_path : M (string * bool) := gets current_dtb.

Section tools.

(** The external tools. The compiler reads the overlay source and the
    include directories, which lie outside the working tree: "compile
    (source_path, include_dirs) -> blob_path | CompileError". The
    test-apply tool reads the blobs named by the paths: "try_apply
    (base_blob_path, ordered_overlay_blob_paths) -> merged_blob_path |
    ApplyError". [find_dtbs] is the [find ... -name *.dtb] listing of the
    error message. *)
Variable dtc : string -> list string -> option string.
Variable fdtoverlay : state -> string -> list path -> option string.
Variable find_dtbs : state -> string -> string.

(** Modelled from the spec: [dt.build_dts] is missing; it runs the compiler
    and writes the blob to [out] when the source compiles. *)
Definition build_dts (dtos_path : string) (include_dirs : list string)
    (out : path) : M bool :=
  modify (fun st => set_calls (calls st ++ [call_build_dts dtos_path include_dirs out]) st) >>
  match dtc dtos_path include_dirs with
  | Some blob => write_file out blob >> ret true
  | None => ret false
  end.

(** Modelled from the spec: [dto.modify_dtb_by_overlays] is missing; it
    runs the test-apply tool and writes the merged blob to [out] when the
    overlays apply. *)
Definition modify_dtb_by_overlays (dtb_path : string) (overlays : list path)
    (out : path) : M bool :=
  modify (fun st => set_calls (calls st ++ [call_modify_dtb dtb_path overlays out]) st) >>
  let* merged := gets (fun st => fdtoverlay st dtb_path overlays) in
  match merged with
  | Some blob => write_file out blob >> ret true
  | None => ret false
  end.

(** *** The commands *)

Definition wic_msg : string :=
  "dto commands are not supported for WIC images. Aborting.".

Definition check_not_wic : M unit :=
  let* ty := unpacked_image_type in
  if String.eqb ty "wic" then raise (InvalidDataError wic_msg) else ret tt.

(** [os.path.splitext(os.path.basename(dtos_path))[0] + ".dtbo"] *)
Definition dtob_target_basename_of (dtos_path : string) : string :=
  fst (posixpath.splitext (posixpath.basename dtos_path)) +:+ ".dtbo".

(** [if dtb_path:] *)
Definition truthy (s : option string) : bool :=
  match s with
  | Some s => nonempty s
  | None => false
  end.

Definition already_applied_msg (dtob_target_basename : string) : string :=
  "error: overlay " +:+ dtob_target_basename +:+ " is already applied.".

Definition not_applicable_msg (dtos_path : string) : string :=
  "error: overlay '" +:+ dtos_path +:+ "' is not applicable.".

Definition dto_apply (dtos_path : string) (dtb_path : option string)
    (include_dirs : list string) (allow_reapply test_apply : bool) : M unit :=
  images_unpack_executed >>
  check_not_wic >>
  let* applied_overlay_basenames := get_applied_overlays_base_names in
  let dtob_target_basename := dtob_target_basename_of dtos_path in
  (* Detect a redundant overlay application. *)
  (if negb allow_reapply && list_in dtob_target_basename applied_overlay_basenames
   then sys_exit [already_applied_msg dtob_target_basename]
   else ret tt) >>
  (* A reapplied overlay is taken out of the current list. *)
  let applied_overlay_basenames :=
    if list_in dtob_target_basename applied_overlay_basenames
    then list_remove dtob_target_basename applied_overlay_basenames
    else applied_overlay_basenames in
  (* Compile the overlay. *)
  let* dtob_tmp_path := NamedTemporaryFile in
  let* built := build_dts dtos_path include_dirs dtob_tmp_path in
  (if negb built
   then sys_exit ["error: cannot apply " +:+ dtos_path +:+ "."]
   else ret tt) >>
  (* Test apply the overlay against the device tree and the applied overlays. *)
  (if test_apply then
     let* dtb_path :=
       (if truthy dtb_path then
          let* any_dtb := get_current_dtb_path in
          ret (posixpath.join (posixpath.dirname (fst any_dtb)) (default EmptyString dtb_path))
        else
          let* cur := get_current_dtb_path in
          if negb (snd cur) then
            let* dtb_list := gets (fun st => find_dtbs st (posixpath.dirname (fst cur))) in
            sys_exit ["error: could not find the device tree to check the overlay against.";
                      "Please use --device-tree to pass one of the device trees below or use --force to bypass checking:";
                      dtb_list]
          else ret (fst cur)) in
     let* applied_overlay_paths := get_applied_overlay_paths applied_overlay_basenames in
     let* dtb_tmp_path := NamedTemporaryFile in
     let* applicable :=
       modify_dtb_by_overlays dtb_path (applied_overlay_paths ++ [dtob_tmp_path]) dtb_tmp_path in
     if negb applicable then sys_exit [not_applicable_msg dtos_path] else ret tt
   else ret tt) >>
  (* Deploy the device tree overlay blob. *)
  os_makedirs_overlays >>
  shutil_move dtob_tmp_path (InChanges dtob_target_basename) >>
  (* Deploy the enablement of the device tree overlay blob. *)
  let new_overlay_basenames := applied_overlay_basenames ++ [dtob_target_basename] in
  write_overlays_txt (overlays_txt_line new_overlay_basenames).

Definition already_not_applied_msg (dtob_basename : string) : string :=
  "error: overlay '" +:+ dtob_basename +:+ "' is already not applied.".

Definition dto_remove_single (dtob_basename : string) (presence_required : bool)
  : M bool :=
  images_unpack_executed >>
  check_not_wic >>
  let* dtob_basenames := get_applied_overlays_base_names in
  if negb (list_in dtob_basename dtob_basenames) then
    if presence_required
    then sys_exit [already_not_applied_msg dtob_basename]
    else ret false
  else
    let dtob_basenames := list_remove dtob_basename dtob_basenames in
    (* An overlays.txt file without the reference to the removed overlay. *)
    write_overlays_txt (overlays_txt_line dtob_basenames) >>
    (* Remove the overlay blob if it is not deployed. *)
    let* dtob_path := find_path_to_overlay dtob_basename in
    (if path_in_changes dtob_path then os_remove dtob_path else ret tt) >>
    ret true.

Definition removal_panic_msg : string :=
  "panic: all overlays removal failed; please contact the maintainers of this tool.".

Definition dto_remove_all : M unit :=
  images_unpack_executed >>
  check_not_wic >>
  (* Deploy an empty overlays config file. *)
  write_overlays_txt ("fdt_overlays=" +:+ nl) >>
  (* Wipe out all overlay blobs as external changes. *)
  shutil_rmtree_overlays >>
  (* Sanity check. *)
  let* left := get_applied_overlays_base_names in
  match left with
  | [] => ret tt
  | _ :: _ => raise (AssertionError removal_panic_msg)
  end.

(** *** Sequences of commands *)

Inductive op :=
| OpApply (dtos_path : string) (dtb_path : option string)
          (include_dirs : list string) (allow_reapply test_apply : bool)
| OpRemoveSingle (dtob_basename : string) (presence_required : bool)
| OpRemoveAll.

(** The state a command leaves, whether it succeeded or failed. *)
Definition run_op (o : op) (st : state) : state :=
  match o with
  | OpApply dtos_path dtb_path include_dirs allow_reapply test_apply =>
      fst (dto_apply dtos_path dtb_path include_dirs allow_reapply test_apply st)
  | OpRemoveSingle dtob_basename presence_required =>
      fst (dto_remove_single dtob_basename presence_required st)
  | OpRemoveAll => fst (dto_remove_all st)
  end.

Definition run_ops (ops : list op) (st : state) : state :=
  fold_left (fun st o => run_op o st) ops st.

End tools.

(** *** Notions the statements use *)

(** The basenames the manifest lists, and the blob files of the overlays
    directory of the changes tree. *)
Definition manifest_names (st : state) : gset string :=
  list_to_set (applied_overlays st).

Definition staged_names (st : state) : gset string :=
  dom (default ∅ (changes_overlays st)).

Definition consistent (st : state) : Prop :=
  manifest_names st = staged_names st.

(** A working tree right after the image was unpacked: no manifest and no
    blob in the changes tree. *)
Definition fresh (st : state) : Prop :=
  overlays_txt st = None /\ staged_names st = ∅.

(** A basename that the manifest line can carry: it has neither a space nor
    a line break. *)
Definition plain_name (b : string) : bool :=
  negb (has_char " " b) && negb (has_char "010" b).

(** A name the reader of the manifest can give back. *)
Definition carried_name (b : string) : Prop :=
  plain_name b = true /\ b ≠ "".

Definition plain_op (o : op) : Prop :=
  match o with
  | OpApply dtos_path _ _ _ _ => plain_name (dtob_target_basename_of dtos_path) = true
  | _ => True
  end.

(** [wp m Q st]: running the command [m] from [st] ends in a state and a
    result that satisfy [Q]. *)
Definition wp {A} (m : M A) (Q : state -> error + A -> Prop) (st : state) : Prop :=
  Q (fst (m st)) (snd (m st)).

(** The commands ran past the checks on the image. *)
Definition image_ok (st : state) : Prop :=
  unpack_executed st = true /\ image_type st ≠ "wic".

(** *** A working tree and tools to run the commands on *)

(** A freshly unpacked image whose device tree is known exactly. *)
Definition example_state : state :=
  {| unpack_executed := true;
     image_type := "tezi";
     current_dtb := ("/storage/sysroot/boot/dtb/imx8qm-apalis.dtb", true);
     base_overlays := {[ "apalis-imx8_hdmi_overlay.dtbo" := "hdmi blob" ]};
     overlays_txt := None;
     changes_overlays := None;
     tmp_files := [];
     calls := [] |}.

(** A compiler that accepts every source, a test-apply tool that accepts
    every chain of overlays and one that rejects every chain. *)
Definition example_dtc (dtos_path : string) (include_dirs : list string)
  : option string :=
  Some ("dtbo of " +:+ dtos_path).

Definition example_fdtoverlay_ok (st : state) (dtb_path : string)
    (overlays : list path) : option string :=
  Some "merged dtb".

Definition example_fdtoverlay_fail (st : state) (dtb_path : string)
    (overlays : list path) : option string :=
  None.

Definition example_find_dtbs (st : state) (dir : string) : string :=
  "- imx8qm-apalis.dtb".

(** The example tree after [a.dts] and then [b.dts] were applied. *)
Definition example_applied_state : state :=
  run_ops example_dtc example_fdtoverlay_ok example_find_dtbs
    [OpApply "overlays/a.dts" None ["device-trees/include"] false true;
     OpApply "overlays/b.dts" None ["device-trees/include"] false true]
    example_state.

End dto_cli.

(** ** [tcbuilder/cli/dto.py]: the entry points of the command line *)

Module dto_commands.
Import pystr dto_cli.

(** The fields of [args] that [do_dto_apply] reads. A field the parser left
    out is [None]. *)
Record apply_args := {
  dtos_path : option string;
  include_dirs : option (list string);
  device_tree : option string;
  force : bool
}.

(** The fields of [args] that [do_dto_remove] reads. *)
Record remove_args := {
  all : bool;
  dtob_basename : option string
}.

Section tools.

Variable dtc : string -> list string -> option string.
Variable fdtoverlay : state -> string -> list path -> option string.
Variable find_dtbs : state -> string -> string.

(** [if not args.include_dirs: args.include_dirs = ["device-trees/include"]] *)
Definition include_dirs_or_default (dirs : option (list string)) : list string :=
  match dirs with
  | Some (d :: ds) => d :: ds
  | Some [] | None => ["device-trees/include"]
  end.

(** The [log.info] lines of the command (the warning on [--force]) are not
    kept. The assignment to [args.include_dirs] is seen by no later
    reader of [args] than the call below. *)
Definition do_dto_apply (args : apply_args) : M unit :=
  let include_dirs := include_dirs_or_default (include_dirs args) in
  (if truthy (dtos_path args) then ret tt
   else raise (AssertionError "panic: missing overlay source parameter")) >>
  dto_apply dtc fdtoverlay find_dtbs
    (default EmptyString (dtos_path args)) (device_tree args) include_dirs
    false (negb (force args)).

End tools.

Definition status_header (cur : string * bool) : string :=
  if snd cur
  then "Enabled overlays over device tree " +:+ posixpath.basename (fst cur) +:+ ":"
  else "Enabled overlays over unknown device tree:".

(** The command answers with the lines it hands to [log.info]. *)
Definition do_dto_status : M (list string) :=
  images_unpack_executed >>
  check_not_wic >>
  (* Show the enabled device tree. *)
  let* cur := get_current_dtb_path in
  (* Show the enabled overlays. *)
  let* applied := get_applied_overlays_base_names in
  ret (status_header cur
       :: map (fun overlay_basename => "- " +:+ overlay_basename) applied).

Definition both_specified_msg : string :=
  "error: both --all and an overlay were specified in the command line.".

Definition none_specified_msg : string :=
  "error: no overlay was specified in the command line.".

Definition do_dto_remove (args : remove_args) : M unit :=
  if all args && truthy (dtob_basename args) then sys_exit [both_specified_msg]
  else if all args then
    (* The user wants to remove all overlays. *)
    dto_remove_all
  else
    (* The user wants to remove a single overlay. *)
    if negb (truthy (dtob_basename args)) then sys_exit [none_specified_msg]
    else
      dto_remove_single (default EmptyString (dtob_basename args)) true >>
      ret tt.

(** *** Working trees and tools to run the commands on *)

(** A compiler that rejects every source. *)
Definition example_dtc_fail (dtos_path : string) (include_dirs : list string)
  : option string :=
  None.

(** The example tree, with a device tree that could not be told exactly. *)
Definition example_unknown_dtb_state : state :=
  {| unpack_executed := true;
     image_type := "tezi";
     current_dtb := ("/storage/sysroot/boot/dtb/imx8qm-apalis.dtb", false);
     base_overlays := {[ "apalis-imx8_hdmi_overlay.dtbo" := "hdmi blob" ]};
     overlays_txt := None;
     changes_overlays := None;
     tmp_files := [];
     calls := [] |}.

(** A tree whose manifest lists an overlay of which there is no blob. *)
Definition example_ghost_state : state :=
  set_overlays_txt (Some (overlays_txt_line ["ghost.dtbo"])) example_state.

Definition example_apply_args : apply_args :=
  {| dtos_path := Some "overlays/a.dts"; include_dirs := None;
     device_tree := None; force := false |}.

Definition example_force_args : apply_args :=
  {| dtos_path := Some "overlays/a.dts"; include_dirs := None;
     device_tree := None; force := true |}.

End dto_commands.

(** ** [tcbuilder/backend/ostree.py]: existence of a path, the references
    of a repository *)

Module ostree_refs.
Import pystr ostree.

(** [check_existance(repo, commit, path)] *)
Definition check_existance (repo : repo) (commit : string) (path : string)
  : error + bool :=
  let path := realpath path in
  match repo commit with
  | None => inl (TorizonCoreBuilderError ("Error couldn't reat commit: " +:+ commit))
  | Some root =>
      inr (match resolve_relative_path root path with
           | Some _ => true
           | None => false
           end)
  end.

Definition OSTREE_BASE_REF : string := "base".

(** [[0-9]] *)
Definition is_digit (a : ascii) : bool :=
  match a with
  | "0" | "1" | "2" | "3" | "4" | "5" | "6" | "7" | "8" | "9" => true
  | _ => false
  end%char.

Fixpoint skip_digits (s : string) : string :=
  match s with
  | String a s' => if is_digit a then skip_digits s' else s
  | EmptyString => EmptyString
  end.

(** [[0-9]+] at the start of [s]: what follows the digits, if there is a
    digit. *)
Definition match_digits (s : string) : option string :=
  match s with
  | String a s' => if is_digit a then Some (skip_digits s') else None
  | EmptyString => None
  end.

(** [re.match(r"ostree/[0-9]+/[0-9]+/[0-9]+", ref_name) is not None]: the
    pattern is looked for at the start of the name only. *)
Definition is_generated_ref (ref_name : string) : bool :=
  match strip_prefix "ostree/" ref_name with
  | Some s1 =>
      match match_digits s1 with
      | Some (String "/" s2) =>
          match match_digits s2 with
          | Some (String "/" s3) =>
              match match_digits s3 with
              | Some _ => true
              | None => false
              end
          | _ => false
          end
      | _ => false
      end
  | None => false
  end.

(** [s.split(c, 1)]: the text before the first [c] and the text after it,
    when [s] holds a [c]. *)
Fixpoint split_once (c : ascii) (s : string) : option (string * string) :=
  match s with
  | EmptyString => None
  | String a s' =>
      if Ascii.eqb a c then Some (EmptyString, s')
      else match split_once c s' with
           | Some (before, after) => Some (String a before, after)
           | None => None
           end
  end.

(** [s.split(c, 1)[-1]]: what follows the first [c], or all of [s]. *)
Definition after_first (c : ascii) (s : string) : string :=
  match split_once c s with
  | Some (_, after) => after
  | None => s
  end.

(** [str.isspace] on the code points below 256. *)
Definition is_space (a : ascii) : bool :=
  match nat_of_ascii a with
  | 9 | 10 | 11 | 12 | 13 | 28 | 29 | 30 | 31 | 32 | 133 | 160 => true
  | _ => false
  end.

(** [s.lstrip()] *)
Fixpoint lstrip (s : string) : string :=
  match s with
  | String a s' => if is_space a then lstrip s' else s
  | EmptyString => EmptyString
  end.

(** The name a reference gets in the dict: its remote is cut off. *)
Definition short_ref_name (ref_name : string) : string :=
  lstrip (after_first ":" ref_name).

(** One round of the loop over [list_refs().out_all_refs.items()]. *)
Definition add_ref (ref_dict : gmap string string) (ref : string * string)
  : gmap string string :=
  if is_generated_ref (fst ref) then ref_dict
  else <[short_ref_name (fst ref) := snd ref]> ref_dict.

(** [list_refs repopath] are the references of the repository at
    [repopath] with their checksums, in the order the dict of
    [list_refs()] hands them out; [None] when the repository cannot be
    opened. *)
Definition get_reference_dict (list_refs : string -> option (list (string * string)))
    (repopath : string) (base_csum : option string)
  : error + gmap string string :=
  let ref_dict : gmap string string :=
    match base_csum with
    | None => ∅
    | Some csum => {[OSTREE_BASE_REF := csum]}
    end in
  match list_refs repopath with
  | None => inl (TorizonCoreBuilderError "Opening the archive OSTree repository failed.")
  | Some refs => inr (fold_left add_ref refs ref_dict)
  end.

(** *** Notions the statements use *)

(** A decimal number: digits, and at least one. *)
Definition decimal (s : string) : Prop :=
  s ≠ EmptyString /\ Forall (fun a => is_digit a = true) (list_ascii_of_string s).

(** The listed references that end up under the key [k]. *)
Definition names_key (k : string) (ref : string * string) : bool :=
  negb (is_generated_ref (fst ref)) && String.eqb (short_ref_name (fst ref)) k.

End ostree_refs.

(** ** [tcbuilder/backend/common.py]: the address of a remote host, the
    size of the files added to an image *)

Module common_host.
Import pystr common.

Fixpoint io_bind {A B} (m : io A) (k : A -> io B) : io B :=
  match m with
  | Ret a => k a
  | Raise e => Raise e
  | GetHostByName hostname f => GetHostByName hostname (fun r => io_bind (f r) k)
  | Query q f => Query q (fun r => io_bind (f r) k)
  end.

(** [ip_address text] says whether [ipaddress.ip_address(text)] returns an
    address object; it raises [ValueError] otherwise. *)
Definition resolve_remote_host (ip_address : string -> bool)
    (remote_host : string) (mdns_source : option string) : io string :=
  if ip_address remote_host then Ret remote_host
  else
    (* This seems to be a host name, let's try to resolve it *)
    io_bind (resolve_hostname remote_host mdns_source)
            (fun '(ip_addr, _mdns) => Ret ip_addr).

End common_host.

Module common_size.
Import pystr.

Inductive error :=
| PathNotExistError (msg : string)
| OperationFailureError (returncode : Z)
| ValueError (msg : string)
| UnboundLocalError (variable : string).

(** [str.lower] on the code points below 256. *)
Definition lower_char (a : ascii) : ascii :=
  let n := nat_of_ascii a in
  if ((65 <=? n) && (n <=? 90)) || ((192 <=? n) && (n <=? 214))
     || ((216 <=? n) && (n <=? 222))
  then ascii_of_nat (n + 32) else a.

Fixpoint lower (s : string) : string :=
  match s with
  | EmptyString => EmptyString
  | String a s' => String (lower_char a) (lower s')
  end.

(** What the function asks of the machine it runs on: [os.path.exists],
    [os.stat(...).st_size], and [subprocess.run] of a shell command line in
    a working directory, which gives an exit code and the text of the
    standard output. [py_int text] is [int(text)], [None] when that raises
    [ValueError]. *)
Record host := {
  path_exists : string -> bool;
  st_size : string -> Z;
  subprocess_run : string -> string -> Z * string;
  py_int : string -> option Z
}.

Section get_additional_size.

Variable h : host.
Variable output_dir_containers : string.

(** The chain of [if filename.endswith(...)]: it assigns [command] or
    leaves the variable as it was. [None] is the variable not yet bound. *)
Definition choose_command (filename : string) (command : option string)
  : option string :=
  if endswith filename ".gz" then Some "gzip -dc"
  else if endswith filename ".xz" then Some "xz -dc"
  else if endswith filename ".lzo" then Some "lzop -dc"
  else if endswith filename ".zst" then Some "zstd -dc"
  else command.

Definition size_command (filename command : string) : string :=
  "cat '" +:+ filename +:+ "' | " +:+ command +:+ " | wc -c".

Definition missing_file_msg (filepath : string) : string :=
  "File " +:+ filepath +:+ " to be added to image.json does not exist".

(** One round of the loop: the local variables [additional_size] and
    [command] before and after it. *)
Definition add_entry (vars : Z * option string) (fileentry : string)
  : error + (Z * option string) :=
  let '(additional_size, command) := vars in
  match split_char ":" fileentry with
  | filename :: _destination :: rest =>
      let filepath := posixpath.join output_dir_containers filename in
      if negb (path_exists h filepath)
      then inl (PathNotExistError (missing_file_msg filepath))
      else
        let unpack :=
          match rest with
          | r :: _ => String.eqb (lower r) "true"
          | [] => false
          end in
        if unpack then
          let command := choose_command filename command in
          match command with
          | None => inl (UnboundLocalError "command")
          | Some cmd =>
              let '(returncode, stdout) :=
                subprocess_run h output_dir_containers (size_command filename cmd) in
              if negb (returncode =? 0)%Z
              then inl (OperationFailureError returncode)
              else
                match py_int h stdout with
                | Some n => inr ((additional_size + n)%Z, command)
                | None => inl (ValueError "invalid literal for int()")
                end
          end
        else inr ((additional_size + st_size h filepath)%Z, command)
  | _ => inl (ValueError "not enough values to unpack")
  end.

Fixpoint add_entries (vars : Z * option string) (files_to_add : list string)
  : error + (Z * option string) :=
  match files_to_add with
  | [] => inr vars
  | fileentry :: files =>
      match add_entry vars fileentry with
      | inl e => inl e
      | inr vars' => add_entries vars' files
      end
  end.

Definition get_additional_size (files_to_add : list string) : error + Z :=
  match add_entries (0%Z, None) files_to_add with
  | inl e => inl e
  | inr (additional_size, _) => inr additional_size
  end.

End get_additional_size.

(** An example machine: three files, and a shell that knows two command
    lines. *)
Definition example_host : host := {|
  path_exists := fun p =>
    bool_decide (p ∈ ["/out/docker-compose.yml"; "/out/docker-storage.tar.xz";
                      "/out/data.bin"]);
  st_size := fun p =>
    if String.eqb p "/out/docker-compose.yml" then 120%Z
    else if String.eqb p "/out/data.bin" then 4096%Z
    else 2048%Z;
  subprocess_run := fun cwd line =>
    if String.eqb line "cat 'docker-storage.tar.xz' | xz -dc | wc -c"
    then (0%Z, "10240")
    else if String.eqb line "cat 'data.bin' | xz -dc | wc -c"
    then (0%Z, "77")
    else (1%Z, EmptyString);
  py_int := fun text =>
    if String.eqb text "10240" then Some 10240%Z
    else if String.eqb text "77" then Some 77%Z
    else None
|}.

End common_size.
(* ================================================================== *)
(** * Part II: statements and proofs                                   *)
(* ================================================================== *)

Import pystr.

#[local] Set Warnings "-clear-no-such-hyp".

(** ** Strings *)

#[local] Arguments String.append !_ _ / : simpl nomatch.

Section string_facts.

Implicit Types (s t u : string) (c a : ascii).

Lemma append_nil_r s : s +:+ "" = s.
Proof. induction s as [|a s IH]; simpl; [done|by rewrite IH]. Qed.

Lemma append_assoc s t u : (s +:+ t) +:+ u = s +:+ (t +:+ u).
Proof. induction s as [|a s IH]; simpl; [done|by rewrite IH]. Qed.

Lemma append_eq_nil s t : s +:+ t = "" -> s = "" /\ t = "".
Proof. destruct s; simpl; [done|discriminate]. Qed.

Lemma prefix_append s t : String.prefix s (s +:+ t) = true.
Proof.
  induction s as [|a s IH]; simpl.
  - by destruct t.
  - destruct (ascii_dec a a); [exact IH|done].
Qed.

Lemma endswith_refl s : endswith s s = true.
Proof. destruct s; cbn [endswith]; by rewrite String.eqb_refl. Qed.

Lemma endswith_append s suf : endswith (s +:+ suf) suf = true.
Proof.
  induction s as [|a s IH]; simpl.
  - apply endswith_refl.
  - rewrite IH. apply orb_true_r.
Qed.

Lemma contains_prefix s t : String.prefix s t = true -> contains s t = true.
Proof. intros H. destruct t; cbn [contains]; rewrite H; done. Qed.

Lemma contains_append_l s t u : contains s u = true -> contains s (t +:+ u) = true.
Proof.
  intros H. induction t as [|a t IH]; simpl; [done|].
  rewrite IH. apply orb_true_r.
Qed.

(** A text occurs in whatever is built around it. *)
Lemma contains_middle s t u : contains s (t +:+ s +:+ u) = true.
Proof. apply contains_append_l, contains_prefix, prefix_append. Qed.

Lemma has_char_append c s t :
  has_char c (s +:+ t) = has_char c s || has_char c t.
Proof.
  induction s as [|a s IH]; simpl; [done|].
  rewrite IH. by rewrite orb_assoc.
Qed.

End string_facts.

(** ** Host resolution *)

Section resolve_hostname_facts.
Import common.

Variable net : network.

(** The name asked over multicast always carries the local-domain suffix,
    which is appended only when it is missing. *)
Lemma mdns_hostname_of_local hostname :
  endswith (mdns_hostname_of hostname) ".local" = true.
Proof.
  unfold mdns_hostname_of.
  destruct (endswith hostname ".local") eqn:E; [exact E|].
  apply endswith_append.
Qed.

Lemma mdns_failed_msg_names_host mdns_hostname :
  contains mdns_hostname (mdns_failed_msg mdns_hostname) = true.
Proof.
  unfold mdns_failed_msg.
  rewrite <- append_assoc. apply contains_middle.
Qed.

(** When the standard resolver answers, the answer is returned and nothing
    else is asked. *)
Lemma resolve_hostname_standard hostname mdns_source ip_addr :
  gethostbyname net hostname = Some ip_addr ->
  run net (resolve_hostname hostname mdns_source)
  = ([ev_gethostbyname hostname], inr (ip_addr, false)).
Proof. intros H. cbn. by rewrite H. Qed.

(** C5. A name that the standard resolver does not know, that does not end
    in [.local] and that has a dot fails at once with the resolution error
    for that name; the only call made is the standard one, so no
    multicast query is issued. *)
Theorem resolve_hostname_qualified_name_fails hostname mdns_source :
  gethostbyname net hostname = None ->
  endswith hostname ".local" = false ->
  contains "." hostname = true ->
  run net (resolve_hostname hostname mdns_source)
  = ([ev_gethostbyname hostname],
     inl (TorizonCoreBuilderError (resolve_failed_msg hostname)))
  /\ Forall (fun e => is_query e = false)
            (fst (run net (resolve_hostname hostname mdns_source))).
Proof.
  intros Hgai Hsuffix Hdot.
  assert (Hrun : run net (resolve_hostname hostname mdns_source)
                 = ([ev_gethostbyname hostname],
                    inl (TorizonCoreBuilderError (resolve_failed_msg hostname)))).
  { cbn. rewrite Hgai, Hsuffix, Hdot. reflexivity. }
  split; [exact Hrun|].
  rewrite Hrun. cbn. repeat constructor.
Qed.

(** C6, as the code has it. A name that the standard resolver does not know
    and that is bare or ends in [.local] is asked once over multicast, under
    its [.local] form: an address-record query to 224.0.0.251, port 5353,
    with a lifetime of 3 seconds and the given source. The first record of
    the answer is returned with [used_mdns = true]. A timeout fails with an
    error whose text holds the multicast name. An empty answer fails with
    the fixed text [mdns_no_answer_msg]. *)
Theorem resolve_hostname_mdns_fallback hostname mdns_source :
  gethostbyname net hostname = None ->
  contains "." hostname = false \/ endswith hostname ".local" = true ->
  endswith (mdns_hostname_of hostname) ".local" = true
  /\ (endswith hostname ".local" = true -> mdns_hostname_of hostname = hostname)
  /\ (endswith hostname ".local" = false ->
      mdns_hostname_of hostname = hostname +:+ ".local")
  /\ fst (run net (resolve_hostname hostname mdns_source))
     = [ev_gethostbyname hostname;
        ev_query {| q_nameservers := ["224.0.0.251"]; q_port := 5353;
                    q_name := mdns_hostname_of hostname; q_rdtype := "A";
                    q_lifetime := 3; q_source := mdns_source |}]
  /\ match resolver_query net
             {| q_nameservers := ["224.0.0.251"]; q_port := 5353;
                q_name := mdns_hostname_of hostname; q_rdtype := "A";
                q_lifetime := 3; q_source := mdns_source |} with
     | Answer (a :: _) =>
         snd (run net (resolve_hostname hostname mdns_source)) = inr (a, true)
     | Answer [] | NoAnswerObject =>
         snd (run net (resolve_hostname hostname mdns_source))
         = inl (TorizonCoreBuilderError mdns_no_answer_msg)
     | RaisesTimeout =>
         snd (run net (resolve_hostname hostname mdns_source))
         = inl (TorizonCoreBuilderError (mdns_failed_msg (mdns_hostname_of hostname)))
         /\ contains (mdns_hostname_of hostname)
                     (mdns_failed_msg (mdns_hostname_of hostname)) = true
     | RaisesOther name =>
         snd (run net (resolve_hostname hostname mdns_source))
         = inl (DnsException name)
     end.
Proof.
  intros Hgai Hlocal.
  assert (Hgate : negb (endswith hostname ".local") && contains "." hostname = false).
  { destruct Hlocal as [-> | ->]; [apply andb_false_r|reflexivity]. }
  split; [apply mdns_hostname_of_local|].
  split; [intros E; unfold mdns_hostname_of; by rewrite E|].
  split; [intros E; unfold mdns_hostname_of; by rewrite E|].
  cbn [resolve_hostname run]. rewrite Hgai, Hgate. cbn [run].
  destruct (resolver_query net _) as [[|a rest]| | |name] eqn:Hq; cbn.
  - done.
  - done.
  - done.
  - split; [done|]. split; [done|]. apply mdns_failed_msg_names_host.
  - done.
Qed.

End resolve_hostname_facts.

(** A name with dots that is not known to the standard resolver. *)
Lemma resolve_hostname_qualified_name_fails_witness :
  common.run {| common.gethostbyname := fun _ => None;
                common.resolver_query := fun _ => common.Answer ["192.168.1.7"] |}
             (common.resolve_hostname "badhost.example.com" None)
  = ([common.ev_gethostbyname "badhost.example.com"],
     inl (common.TorizonCoreBuilderError
            (common.resolve_failed_msg "badhost.example.com")))
  /\ Forall (fun e => common.is_query e = false)
       (fst (common.run {| common.gethostbyname := fun _ => None;
                           common.resolver_query := fun _ => common.Answer ["192.168.1.7"] |}
                        (common.resolve_hostname "badhost.example.com" None))).
Proof.
  apply (resolve_hostname_qualified_name_fails
           {| common.gethostbyname := fun _ => None;
              common.resolver_query := fun _ => common.Answer ["192.168.1.7"] |}
           "badhost.example.com" None); reflexivity.
Defined.

(** A bare name answered by nobody: the multicast query times out. *)
Lemma resolve_hostname_mdns_fallback_witness :
  fst (common.run {| common.gethostbyname := fun _ => None;
                     common.resolver_query := fun _ => common.RaisesTimeout |}
                  (common.resolve_hostname "device" (Some "192.168.1.2")))
  = [common.ev_gethostbyname "device";
     common.ev_query {| common.q_nameservers := ["224.0.0.251"];
                        common.q_port := 5353;
                        common.q_name := "device.local";
                        common.q_rdtype := "A";
                        common.q_lifetime := 3;
                        common.q_source := Some "192.168.1.2" |}].
Proof.
  destruct (resolve_hostname_mdns_fallback
              {| common.gethostbyname := fun _ => None;
                 common.resolver_query := fun _ => common.RaisesTimeout |}
              "device" (Some "192.168.1.2") eq_refl (or_introl eq_refl))
    as (_ & _ & _ & Htrace & _).
  exact Htrace.
Defined.

(** C6 as the spec words it fails on an empty answer: the error raised for
    the bare name ["device"] does not hold the multicast name
    ["device.local"]. *)
Lemma resolve_hostname_empty_answer_names_no_host :
  ~ exists msg,
      snd (common.run {| common.gethostbyname := fun _ => None;
                         common.resolver_query := fun _ => common.Answer [] |}
                      (common.resolve_hostname "device" None))
      = inl (common.TorizonCoreBuilderError msg)
      /\ contains "device.local" msg = true.
Proof.
  intros (msg & Hrun & Hnamed).
  cbn in Hrun. injection Hrun as <-.
  vm_compute in Hnamed. discriminate Hnamed.
Qed.

(** ** Kernel discovery *)

Section get_kernel_version_facts.
Import ostree.

Variable repo : repo.
Variable commit : string.

Lemma existsb_is_vmlinuz files :
  existsb is_vmlinuz files = true <-> exists f, f ∈ files /\ name f = "vmlinuz".
Proof.
  rewrite existsb_exists. unfold is_vmlinuz.
  split; intros (f & Hin & Hname); exists f.
  - split; [by apply list_elem_of_In|by apply String.eqb_eq].
  - split; [by apply list_elem_of_In|by apply String.eqb_eq].
Qed.

Lemma existsb_is_vmlinuz_false files :
  existsb is_vmlinuz files = false <-> forall f, f ∈ files -> name f ≠ "vmlinuz".
Proof.
  split.
  - intros Hnone f Hin Hname.
    assert (existsb is_vmlinuz files = true) as Hsome
      by (apply existsb_is_vmlinuz; eauto).
    congruence.
  - intros Hnone. destruct (existsb is_vmlinuz files) eqn:E; [|done].
    apply existsb_is_vmlinuz in E as (f & Hin & Hname).
    by destruct (Hnone f Hin).
Qed.

(** The loop stops at the first directory in which a [vmlinuz] entry is
    listed and answers its name; it answers the empty string when it runs to
    the end. *)
Lemma find_kernel_dir_first module_dirs :
  (forall d, d ∈ module_dirs ->
             exists files, ls repo ("/usr/lib/modules/" +:+ name d) commit = inr files) ->
  (exists before d after,
      module_dirs = before ++ d :: after
      /\ Forall (lacks_vmlinuz repo commit) before
      /\ holds_vmlinuz repo commit d
      /\ find_kernel_dir repo commit module_dirs = inr (name d))
  \/ (Forall (lacks_vmlinuz repo commit) module_dirs
      /\ find_kernel_dir repo commit module_dirs = inr "").
Proof.
  induction module_dirs as [|d rest IH]; intros Hls.
  - right. split; [constructor|reflexivity].
  - destruct (Hls d) as (files & Hfiles); [left|].
    cbn [find_kernel_dir]. rewrite Hfiles.
    destruct (existsb is_vmlinuz files) eqn:Hvm.
    + left. exists [], d, rest. split; [done|]. split; [constructor|].
      split; [|done]. exists files. split; [done|].
      by apply existsb_is_vmlinuz.
    + assert (lacks_vmlinuz repo commit d) as Hlacks.
      { exists files. split; [done|]. by apply existsb_is_vmlinuz_false. }
      destruct IH as [(before & d' & after & -> & Hbefore & Hd' & Hres)|(Hall & Hres)].
      * intros d' Hd'. apply Hls. by right.
      * left. exists (d :: before), d', after.
        split; [done|]. split; [by constructor|]. done.
      * right. split; [by constructor|done].
Qed.

(** C9. Kernel discovery lists [/usr/lib/modules], keeps the entries that
    are directories and walks them in order; it answers the name of the
    first of them whose own listing has an entry named [vmlinuz]. When no
    directory has one the answer is the empty string. *)
Theorem get_kernel_version_selects_vmlinuz_dir module_files :
  ls repo "/usr/lib/modules" commit = inr module_files ->
  (forall d, d ∈ module_files -> is_directory d = true ->
             exists files, ls repo ("/usr/lib/modules/" +:+ name d) commit = inr files) ->
  (exists before d after,
      List.filter is_directory module_files = before ++ d :: after
      /\ d ∈ module_files
      /\ type d = "directory"
      /\ Forall (lacks_vmlinuz repo commit) before
      /\ holds_vmlinuz repo commit d
      /\ get_kernel_version repo commit = inr (name d))
  \/ (Forall (lacks_vmlinuz repo commit) (List.filter is_directory module_files)
      /\ get_kernel_version repo commit = inr "").
Proof.
  intros Hmodules Hsub.
  unfold get_kernel_version. rewrite Hmodules.
  destruct (find_kernel_dir_first (List.filter is_directory module_files))
    as [(before & d & after & Hsplit & Hbefore & Hd & Hres)|(Hall & Hres)].
  - intros d Hd. apply list_elem_of_In, filter_In in Hd as [Hin Hdir].
    apply Hsub; [by apply list_elem_of_In|done].
  - left. exists before, d, after.
    assert (In d (List.filter is_directory module_files)) as Hin.
    { rewrite Hsplit. apply in_or_app. right. by left. }
    apply filter_In in Hin as [Hin Hdir].
    split; [done|]. split; [by apply list_elem_of_In|].
    split; [by apply String.eqb_eq|]. done.
  - by right.
Qed.

End get_kernel_version_facts.

(** A commit with two module directories, the second of which holds the
    kernel image. *)
Lemma get_kernel_version_selects_vmlinuz_dir_witness :
  ostree.get_kernel_version
    (fun commit =>
       if String.eqb commit "base"
       then Some (ostree.Dir
              [("usr", ostree.Dir
                 [("lib", ostree.Dir
                    [("modules", ostree.Dir
                       [("README", ostree.Leaf ostree.REGULAR);
                        ("5.4.129", ostree.Dir [("kernel", ostree.Dir [])]);
                        ("5.4.154", ostree.Dir
                           [("vmlinuz", ostree.Leaf ostree.REGULAR);
                            ("dtb", ostree.Dir [])])])])])])
       else None)
    "base"
  = inr "5.4.154".
Proof.
  destruct (get_kernel_version_selects_vmlinuz_dir
              (fun commit =>
                 if String.eqb commit "base"
                 then Some (ostree.Dir
                        [("usr", ostree.Dir
                           [("lib", ostree.Dir
                              [("modules", ostree.Dir
                                 [("README", ostree.Leaf ostree.REGULAR);
                                  ("5.4.129", ostree.Dir [("kernel", ostree.Dir [])]);
                                  ("5.4.154", ostree.Dir
                                     [("vmlinuz", ostree.Leaf ostree.REGULAR);
                                      ("dtb", ostree.Dir [])])])])])])
                 else None)
              "base"
              [ {| ostree.name := "README"; ostree.type := "regular" |};
                {| ostree.name := "5.4.129"; ostree.type := "directory" |};
                {| ostree.name := "5.4.154"; ostree.type := "directory" |} ])
    as [(before & d & after & _ & _ & _ & _ & _ & Hres)|(_ & Hres)].
  - reflexivity.
  - intros d Hd Hdir.
    apply list_elem_of_In in Hd.
    destruct Hd as [<-|[<-|[<-|[]]]]; [discriminate Hdir| |]; eexists; reflexivity.
  - rewrite Hres. vm_compute in Hres. exact (eq_sym Hres).
  - vm_compute in Hres. discriminate Hres.
Defined.

(** ** The text of the manifest *)

Section manifest_text.
Import dto_cli.

Implicit Types (s t v : string) (c d : ascii) (l : list string).

Lemma split_char_cons c s : exists w ws, split_char c s = w :: ws.
Proof.
  destruct s as [|a s]; cbn [split_char]; [by eexists _, _|].
  destruct (Ascii.eqb a c); [by eexists _, _|].
  destruct (split_char c s); by eexists _, _.
Qed.

Lemma split_char_no_sep c s : has_char c s = false -> split_char c s = [s].
Proof.
  induction s as [|a s IH]; cbn [split_char has_char]; [done|].
  intros [Ha Hs]%orb_false_elim. rewrite Ha, (IH Hs). done.
Qed.

Lemma split_char_append_sep c s t :
  has_char c s = false ->
  split_char c (s +:+ String c t) = s :: split_char c t.
Proof.
  induction s as [|a s IH]; cbn [has_char].
  - intros _. cbn [String.append split_char]. by rewrite Ascii.eqb_refl.
  - intros [Ha Hs]%orb_false_elim.
    cbn [String.append split_char]. rewrite Ha, (IH Hs). done.
Qed.

(** The pieces of a split do not hold the separator, nor any character the
    whole text does not hold. *)
Lemma split_char_pieces c d s w :
  w ∈ split_char c s -> has_char c w = false /\ (has_char d s = false -> has_char d w = false).
Proof.
  revert w. induction s as [|a s IH]; intros w; cbn [split_char].
  - intros ->%list_elem_of_singleton. done.
  - destruct (Ascii.eqb a c) eqn:Ha.
    + intros [->|Hw]%elem_of_cons; [done|].
      destruct (IH w Hw) as [H1 H2]. split; [done|].
      cbn [has_char]. intros [_ Hs]%orb_false_elim. auto.
    + destruct (split_char_cons c s) as (w0 & ws & Hsplit).
      rewrite Hsplit in IH |- *.
      intros [->|Hw]%elem_of_cons.
      * destruct (IH w0) as [H1 H2]; [by left|].
        cbn [has_char]. rewrite Ha, H1. split; [done|].
        intros [-> Hs]%orb_false_elim. by rewrite H2.
      * destruct (IH w) as [H1 H2]; [by right|]. split; [done|].
        cbn [has_char]. intros [_ Hs]%orb_false_elim. auto.
Qed.

Lemma strip_prefix_append p s : strip_prefix p (p +:+ s) = Some s.
Proof.
  induction p as [|a p IH]; cbn [String.append strip_prefix]; [done|].
  by rewrite Ascii.eqb_refl.
Qed.

Lemma strip_prefix_Some p s v : strip_prefix p s = Some v -> s = p +:+ v.
Proof.
  revert s. induction p as [|a p IH]; intros s; cbn [strip_prefix].
  - by intros [= ->].
  - destruct s as [|b s]; [done|].
    destruct (Ascii.eqb a b) eqn:Hab; [|done].
    apply Ascii.eqb_eq in Hab as ->. intros ->%IH. done.
Qed.

Lemma nonempty_true s : nonempty s = true <-> s ≠ "".
Proof.
  unfold nonempty. destruct (String.eqb_spec s ""); split; try done.
Qed.

Lemma carried_name_no_space b : carried_name b -> has_char " " b = false.
Proof.
  intros [[H _]%andb_prop _]. by apply negb_true_iff in H.
Qed.

Lemma carried_name_no_newline b : carried_name b -> has_char "010" b = false.
Proof.
  intros [[_ H]%andb_prop _]. by apply negb_true_iff in H.
Qed.

Lemma join_cons_cons sep b b' l :
  join sep (b :: b' :: l) = b +:+ sep +:+ join sep (b' :: l).
Proof. reflexivity. Qed.

Lemma has_char_join_space c l :
  c ≠ " "%char ->
  Forall (fun b => has_char c b = false) l -> has_char c (join " " l) = false.
Proof.
  intros Hc. induction 1 as [|b l Hb Hl IH]; [done|].
  destruct l as [|b' l]; [done|].
  rewrite join_cons_cons, !has_char_append, Hb, IH.
  cbn [has_char orb]. rewrite !orb_false_r.
  by apply Ascii.eqb_neq, not_eq_sym.
Qed.

(** Names without spaces come back from the space-separated value they
    were joined into. *)
Lemma split_join_space l :
  Forall carried_name l ->
  List.filter nonempty (split_char " " (join " " l)) = l.
Proof.
  induction 1 as [|b l Hb Hl IH]; [done|].
  destruct l as [|b' l].
  - cbn [join String.concat].
    rewrite split_char_no_sep by by apply carried_name_no_space.
    cbn [List.filter]. destruct Hb as [_ Hb]. by apply nonempty_true in Hb as ->.
  - rewrite join_cons_cons.
    change (b +:+ " " +:+ join " " (b' :: l))
      with (b +:+ String " " (join " " (b' :: l))).
    rewrite split_char_append_sep by by apply carried_name_no_space.
    cbn [List.filter]. destruct Hb as [_ Hb]. apply nonempty_true in Hb as ->.
    by rewrite IH.
Qed.

(** Reading back the line the commands write gives the names written,
    provided each name can be carried. *)
Lemma parse_overlays_txt_line l :
  Forall carried_name l -> parse_overlays_txt (overlays_txt_line l) = l.
Proof.
  intros Hl. unfold parse_overlays_txt, overlays_txt_line, nl.
  rewrite <- append_assoc.
  rewrite split_char_append_sep.
  - cbn [find_directive]. rewrite strip_prefix_append. by apply split_join_space.
  - rewrite has_char_append. apply orb_false_intro; [done|].
    apply has_char_join_space; [done|].
    eapply Forall_impl; [exact Hl|]. apply carried_name_no_newline.
Qed.

Lemma find_directive_Some lines v :
  find_directive lines = Some v ->
  exists line, line ∈ lines /\ line = "fdt_overlays=" +:+ v.
Proof.
  induction lines as [|line rest IH]; cbn [find_directive]; [done|].
  destruct (strip_prefix "fdt_overlays=" line) as [v'|] eqn:Hline.
  - intros [= ->]. exists line. split; [by left|]. by apply strip_prefix_Some.
  - intros (line' & Hin & Heq)%IH. exists line'. split; [by right|done].
Qed.

(** Whatever the manifest holds, the names read from it can be carried. *)
Lemma parse_overlays_txt_carried content :
  Forall carried_name (parse_overlays_txt content).
Proof.
  unfold parse_overlays_txt.
  destruct (find_directive _) as [v|] eqn:Hv; [|constructor].
  apply find_directive_Some in Hv as (line & Hline & ->).
  destruct (split_char_pieces "010" "010" _ _ Hline) as [Hnl _].
  rewrite has_char_append in Hnl. apply orb_false_elim in Hnl as [_ Hnl].
  apply Forall_forall. intros b [Hb Hne]%list_elem_of_In%filter_In.
  apply list_elem_of_In in Hb.
  destruct (split_char_pieces " " "010" _ _ Hb) as [Hsp Hnl'].
  split; [|by apply nonempty_true].
  unfold plain_name. by rewrite Hsp, (Hnl' Hnl).
Qed.

Lemma applied_overlays_carried st : Forall carried_name (applied_overlays st).
Proof.
  unfold applied_overlays. destruct (overlays_txt st); [|constructor].
  apply parse_overlays_txt_carried.
Qed.

(** The line alone does not tell one name with a space from two names. *)
Lemma overlays_txt_line_ambiguous :
  overlays_txt_line ["a.dtbo b.dtbo"] = overlays_txt_line ["a.dtbo"; "b.dtbo"].
Proof. reflexivity. Qed.

End manifest_text.

(** ** Lists of names *)

Section list_facts.

Implicit Types (x y : string) (l : list string).

Lemma list_in_true x l : list_in x l = true <-> x ∈ l.
Proof. unfold list_in. by rewrite bool_decide_eq_true. Qed.

Lemma list_in_false x l : list_in x l = false <-> x ∉ l.
Proof. unfold list_in. by rewrite bool_decide_eq_false. Qed.

Lemma list_remove_not_elem x l : x ∉ l -> list_remove x l = l.
Proof.
  induction l as [|y l IH]; [done|].
  intros [Hne Hl]%not_elem_of_cons. cbn [list_remove].
  destruct (String.eqb_spec y x); [congruence|]. by rewrite IH.
Qed.

Lemma elem_of_list_remove x y l : y ∈ list_remove x l -> y ∈ l.
Proof.
  induction l as [|z l IH]; [done|]. cbn [list_remove].
  destruct (String.eqb_spec z x).
  - intros. by right.
  - intros [->|H]%elem_of_cons; [by left|right; auto].
Qed.

Lemma elem_of_list_remove_ne x y l : y ≠ x -> y ∈ l -> y ∈ list_remove x l.
Proof.
  intros Hne. induction l as [|z l IH]; [done|]. cbn [list_remove].
  destruct (String.eqb_spec z x) as [->|Hz].
  - intros [->|H]%elem_of_cons; done.
  - intros [->|H]%elem_of_cons; [by left|right; auto].
Qed.

Lemma list_remove_Forall (P : string -> Prop) x l :
  Forall P l -> Forall P (list_remove x l).
Proof.
  rewrite !Forall_forall. intros H y Hy%elem_of_list_remove. auto.
Qed.

Lemma list_remove_NoDup x l : NoDup l -> NoDup (list_remove x l).
Proof.
  induction 1 as [|y l Hy Hl IH]; [constructor|]. cbn [list_remove].
  destruct (String.eqb_spec y x); [done|].
  constructor; [|done]. intros H%elem_of_list_remove. done.
Qed.

(** Taking a name out of a list that holds it once leaves none. *)
Lemma list_remove_NoDup_not_elem x l : NoDup l -> x ∉ list_remove x l.
Proof.
  induction 1 as [|y l Hy Hl IH]; [by apply not_elem_of_nil|]. cbn [list_remove].
  destruct (String.eqb_spec y x) as [->|Hne]; [done|].
  apply not_elem_of_cons. split; [congruence|done].
Qed.

Lemma list_remove_to_set x l :
  NoDup l -> list_to_set (C := gset string) (list_remove x l) = list_to_set l ∖ {[x]}.
Proof.
  intros Hl. apply set_eq. intros y.
  rewrite elem_of_difference, !elem_of_list_to_set, not_elem_of_singleton.
  split.
  - intros Hy. split; [by eapply elem_of_list_remove|].
    intros ->. by apply (list_remove_NoDup_not_elem x l).
  - intros [Hy Hne]. by apply elem_of_list_remove_ne.
Qed.

Lemma list_remove_length x l :
  x ∈ l -> length l = S (length (list_remove x l)).
Proof.
  induction l as [|y l IH]; [by intros ?%elem_of_nil|]. cbn [list_remove].
  destruct (String.eqb_spec y x) as [->|Hne]; [done|].
  intros [->|H]%elem_of_cons; [done|]. cbn. by rewrite <- IH.
Qed.

End list_facts.


(** ** Reasoning about commands *)

Import dto_cli.

Lemma wp_bind {A B} (m : M A) (k : A -> M B) Q st :
  wp m (fun st1 r => match r with
                     | inl e => Q st1 (inl e)
                     | inr a => wp (k a) Q st1
                     end) st ->
  wp (bind m k) Q st.
Proof. unfold wp, bind. by destruct (m st) as [st1 [e|a]]. Qed.

Lemma wp_eq {A} (m : M A) st st0 r0 :
  wp m (fun st' r => st' = st0 /\ r = r0) st -> m st = (st0, r0).
Proof. unfold wp. destruct (m st) as [st' r]. cbn. by intros [-> ->]. Qed.

Lemma wp_run {A} (m : M A) Q st st' r : wp m Q st -> m st = (st', r) -> Q st' r.
Proof. unfold wp. intros H E. by rewrite E in H. Qed.



Lemma wp_ret {A} (a : A) Q st : Q st (inr a) -> wp (ret a) Q st.
Proof. done. Qed.

Lemma wp_raise {A} e (Q : state -> error + A -> Prop) st :
  Q st (inl e) -> wp (raise e) Q st.
Proof. done. Qed.

Lemma wp_gets {A} (f : state -> A) Q st : Q st (inr (f st)) -> wp (gets f) Q st.
Proof. done. Qed.

Lemma wp_modify f Q st : Q (f st) (inr tt) -> wp (modify f) Q st.
Proof. done. Qed.

Lemma wp_images_unpack_executed Q st :
  (if unpack_executed st then Q st (inr tt)
   else Q st (inl (InvalidOperation "images unpack was not executed"))) ->
  wp images_unpack_executed Q st.
Proof. unfold wp, images_unpack_executed. by destruct (unpack_executed st). Qed.

Lemma wp_NamedTemporaryFile Q st :
  Q (set_tmp_files (tmp_files st ++ [Some ""]) st) (inr (InTmp (length (tmp_files st)))) ->
  wp NamedTemporaryFile Q st.
Proof. done. Qed.

Lemma wp_find_path_to_overlay b Q st :
  match read_file (InChanges b) st with
  | Some _ => Q st (inr (InChanges b))
  | None =>
      match read_file (InBase b) st with
      | Some _ => Q st (inr (InBase b))
      | None => Q st (inl (NotFound b))
      end
  end ->
  wp (find_path_to_overlay b) Q st.
Proof.
  unfold wp, find_path_to_overlay, locate_overlay. cbn [fst snd].
  destruct (read_file (InChanges b) st); [done|].
  by destruct (read_file (InBase b) st).
Qed.

Lemma wp_get_applied_overlay_paths l Q st :
  Q st (locate_overlays st l) -> wp (get_applied_overlay_paths l) Q st.
Proof. done. Qed.

Lemma wp_write_file_tmp n content Q st :
  Q (set_tmp_files (<[n := Some content]> (tmp_files st)) st) (inr tt) ->
  wp (write_file (InTmp n) content) Q st.
Proof. done. Qed.

Lemma wp_write_file_changes b content Q st :
  match changes_overlays st with
  | Some d => Q (set_changes_overlays (Some (<[b := content]> d)) st) (inr tt)
  | None => Q st (inl (FileNotFoundError (InChanges b)))
  end ->
  wp (write_file (InChanges b) content) Q st.
Proof. unfold wp, write_file. by destruct (changes_overlays st). Qed.

Lemma wp_read_or_fail p Q st :
  match read_file p st with
  | Some content => Q st (inr content)
  | None => Q st (inl (FileNotFoundError p))
  end ->
  wp (read_or_fail p) Q st.
Proof. unfold wp, read_or_fail. by destruct (read_file p st). Qed.

Lemma wp_os_remove p Q st :
  match read_file p st with
  | Some _ => Q (delete_file p st) (inr tt)
  | None => Q st (inl (FileNotFoundError p))
  end ->
  wp (os_remove p) Q st.
Proof. unfold wp, os_remove. by destruct (read_file p st). Qed.

Lemma wp_os_makedirs_overlays Q st :
  match changes_overlays st with
  | Some _ => Q st (inr tt)
  | None => Q (set_changes_overlays (Some ∅) st) (inr tt)
  end ->
  wp os_makedirs_overlays Q st.
Proof.
  unfold wp, os_makedirs_overlays, modify. cbn [fst snd].
  by destruct (changes_overlays st).
Qed.

(** Projections of an updated state. *)
Ltac state_simpl :=
  cbn [negb andb unpack_executed image_type current_dtb base_overlays overlays_txt
       changes_overlays tmp_files calls set_overlays_txt set_changes_overlays
       set_base_overlays set_tmp_files set_calls delete_file read_file] in *.

(** One step of a command: the rule of its head, or the case on what the
    head ran into. *)
Ltac wp_step :=
  lazymatch goal with
  | |- wp (bind _ _) _ _ => apply wp_bind
  | |- wp (ret _) _ _ => apply wp_ret
  | |- wp (raise _) _ _ => apply wp_raise
  | |- wp (sys_exit _) _ _ => apply wp_raise
  | |- wp (gets _) _ _ => apply wp_gets
  | |- wp (modify _) _ _ => apply wp_modify
  | |- wp (if ?c then _ else _) _ _ => destruct c eqn:?
  | |- wp (match ?x with _ => _ end) _ _ => destruct x eqn:?
  | |- wp images_unpack_executed _ _ => apply wp_images_unpack_executed
  | |- wp check_not_wic _ _ => unfold check_not_wic
  | |- wp unpacked_image_type _ _ => unfold unpacked_image_type
  | |- wp get_applied_overlays_base_names _ _ => unfold get_applied_overlays_base_names
  | |- wp get_current_dtb_path _ _ => unfold get_current_dtb_path
  | |- wp NamedTemporaryFile _ _ => apply wp_NamedTemporaryFile
  | |- wp (get_applied_overlay_paths _) _ _ => apply wp_get_applied_overlay_paths
  | |- wp (find_path_to_overlay _) _ _ => apply wp_find_path_to_overlay
  | |- wp (write_file (InTmp _) _) _ _ => apply wp_write_file_tmp
  | |- wp (write_file (InChanges _) _) _ _ => apply wp_write_file_changes
  | |- wp (build_dts _ _ _ _) _ _ => unfold build_dts
  | |- wp (modify_dtb_by_overlays _ _ _ _) _ _ => unfold modify_dtb_by_overlays
  | |- wp os_makedirs_overlays _ _ => apply wp_os_makedirs_overlays
  | |- wp shutil_rmtree_overlays _ _ => unfold shutil_rmtree_overlays
  | |- wp (write_overlays_txt _) _ _ => unfold write_overlays_txt
  | |- wp (shutil_move _ _) _ _ => unfold shutil_move
  | |- wp (read_or_fail _) _ _ => apply wp_read_or_fail
  | |- wp (os_remove _) _ _ => apply wp_os_remove
  | |- match ?x with _ => _ end => destruct x eqn:?
  | |- if ?c then _ else _ => destruct c eqn:?
  end;
  state_simpl; try congruence.

(** *** Temporary files *)

Section tmp_files_facts.

Implicit Types (tmp : list (option string)) (x y : option string).

Lemma tmp_lookup_new tmp x y :
  <[length tmp := x]> (tmp ++ [y]) !! length tmp = Some x.
Proof. apply list_lookup_insert_eq. rewrite length_app. cbn. lia. Qed.

Lemma tmp_lookup_new_app tmp x y z :
  (<[length tmp := x]> (tmp ++ [y]) ++ [z]) !! length tmp = Some x.
Proof.
  rewrite lookup_app_l by (rewrite length_insert, length_app; cbn; lia).
  apply tmp_lookup_new.
Qed.

Lemma tmp_lookup_new_next tmp x y z w :
  <[length (<[length tmp := x]> (tmp ++ [y])) := w]>
    (<[length tmp := x]> (tmp ++ [y]) ++ [z]) !! length tmp = Some x.
Proof.
  rewrite list_lookup_insert_ne by (rewrite length_insert, length_app; cbn; lia).
  apply tmp_lookup_new_app.
Qed.

End tmp_files_facts.

Ltac tmp_simpl :=
  rewrite ?tmp_lookup_new, ?tmp_lookup_new_app, ?tmp_lookup_new_next in *;
  cbn [mjoin option_join] in *.

Lemma image_ok_intro st :
  unpack_executed st = true -> String.eqb (image_type st) "wic" = false -> image_ok st.
Proof. intros Hu Hty. split; [done|]. by apply String.eqb_neq. Qed.

(** *** What [dto_apply] leaves behind *)

Section dto_apply_facts.
Variable dtc : string -> list string -> option string.
Variable fdtoverlay : state -> string -> list path -> option string.
Variable find_dtbs : state -> string -> string.

Local Abbreviation dto_apply := (dto_apply dtc fdtoverlay find_dtbs).

(** The image data are never touched. A failed run leaves the manifest and
    the overlays directory of the changes tree as they were. A successful
    run got past the checks, compiled the source, wrote the blob under the
    target name and rewrote the manifest with the target name last. *)
Lemma dto_apply_tree dtos dtb inc ar ta st :
  wp (dto_apply dtos dtb inc ar ta)
    (fun st' r =>
       unpack_executed st' = unpack_executed st
       /\ image_type st' = image_type st
       /\ current_dtb st' = current_dtb st
       /\ base_overlays st' = base_overlays st
       /\ match r with
          | inl _ =>
              overlays_txt st' = overlays_txt st
              /\ changes_overlays st' = changes_overlays st
          | inr _ =>
              image_ok st
              /\ negb ar && list_in (dtob_target_basename_of dtos) (applied_overlays st) = false
              /\ exists blob,
                  dtc dtos inc = Some blob
                  /\ overlays_txt st'
                     = Some (overlays_txt_line
                               ((if list_in (dtob_target_basename_of dtos) (applied_overlays st)
                                 then list_remove (dtob_target_basename_of dtos) (applied_overlays st)
                                 else applied_overlays st)
                                ++ [dtob_target_basename_of dtos]))
                  /\ changes_overlays st'
                     = Some (<[dtob_target_basename_of dtos := blob]>
                               (default ∅ (changes_overlays st)))
          end) st.
Proof.
  unfold dto_apply.
  repeat wp_step.
  all: tmp_simpl; simplify_eq; try done.
  all: repeat split; eauto; by apply String.eqb_neq.
Qed.

(** The compiled blob sits in the temporary file made first. A failed run
    never takes it away; a successful run moves it. *)
Lemma dto_apply_tmp dtos dtb inc ar ta st :
  wp (dto_apply dtos dtb inc ar ta)
    (fun st' r =>
       match r with
       | inl _ =>
           forall blob,
             image_ok st ->
             negb ar && list_in (dtob_target_basename_of dtos) (applied_overlays st) = false ->
             dtc dtos inc = Some blob ->
             tmp_files st' !! length (tmp_files st) = Some (Some blob)
       | inr _ => tmp_files st' !! length (tmp_files st) = Some None
       end) st.
Proof.
  unfold dto_apply.
  repeat wp_step.
  all: tmp_simpl; simplify_eq.
  all: try (intros blob [Hu Hty] Hgate Hblob; simplify_eq;
            first [ congruence
                  | match goal with
                    | H : String.eqb _ _ = true |- _ => by apply String.eqb_eq in H
                    end
                  | by rewrite ?tmp_lookup_new, ?tmp_lookup_new_app, ?tmp_lookup_new_next ]).
  all: apply list_lookup_insert_eq;
    repeat (rewrite length_insert || rewrite length_app); cbn; lia.
Qed.

(** The calls of the external tools: the test-apply tool is only called
    when testing is asked for, and then on the device tree the command
    worked out; a successful run with testing did call it. *)
Lemma dto_apply_calls dtos dtb inc ar ta st :
  wp (dto_apply dtos dtb inc ar ta)
    (fun st' r =>
       exists new,
         calls st' = calls st ++ new
         /\ (forall p ovs out,
                call_modify_dtb p ovs out ∈ new ->
                ta = true
                /\ p = if truthy dtb
                       then posixpath.join (posixpath.dirname (fst (current_dtb st)))
                                           (default "" dtb)
                       else fst (current_dtb st))
         /\ (ta = true -> r = inr tt ->
             exists p ovs out, call_modify_dtb p ovs out ∈ new)) st.
Proof.
  unfold dto_apply.
  repeat wp_step.
  all: first
         [ exists []; split; [by rewrite app_nil_r|];
           split; [by intros p ovs out ?%elem_of_nil|done]
         | eexists; split; [by rewrite <- ?app_assoc|] ].
  all: split;
         [ intros p ovs out Hin;
           repeat (apply elem_of_cons in Hin as [Hin|Hin]; [by simplify_eq|]);
           by apply elem_of_nil in Hin
         | intros; try done; eexists _, _, _; right; left ].
Qed.

End dto_apply_facts.

(** *** What the removals leave behind *)

Section dto_remove_facts.

(** Removing one overlay: the image data, the temporary files and the log
    of tool calls stay. Without the name in the manifest nothing changes.
    With it, the manifest is rewritten without its first occurrence, and
    the blob is deleted from the changes tree if it is found there; a blob
    found in the base image only is left alone; a blob found nowhere ends
    the command after the manifest was rewritten. *)
Lemma dto_remove_single_outcome b pr st :
  wp (dto_remove_single b pr)
    (fun st' r =>
       unpack_executed st' = unpack_executed st
       /\ image_type st' = image_type st
       /\ current_dtb st' = current_dtb st
       /\ base_overlays st' = base_overlays st
       /\ tmp_files st' = tmp_files st
       /\ calls st' = calls st
       /\ match r with
          | inr false => st' = st /\ (b ∉ applied_overlays st) /\ pr = false
          | inr true =>
              image_ok st /\ b ∈ applied_overlays st
              /\ overlays_txt st'
                 = Some (overlays_txt_line (list_remove b (applied_overlays st)))
              /\ changes_overlays st' = delete b <$> changes_overlays st
              /\ (is_Some (read_file (InChanges b) st) \/ is_Some (read_file (InBase b) st))
          | inl e =>
              (st' = st /\
               (~ image_ok st
                \/ ((b ∉ applied_overlays st) /\ pr = true
                    /\ e = SystemExit 1 [already_not_applied_msg b])))
              \/ (image_ok st /\ b ∈ applied_overlays st
                  /\ e = NotFound b
                  /\ overlays_txt st'
                     = Some (overlays_txt_line (list_remove b (applied_overlays st)))
                  /\ changes_overlays st' = changes_overlays st
                  /\ read_file (InChanges b) st = None
                  /\ read_file (InBase b) st = None)
          end) st.
Proof.
  unfold dto_remove_single.
  repeat wp_step.
  all: repeat match goal with
              | H : list_in _ _ = true |- _ => apply list_in_true in H
              | H : negb (list_in _ _) = false |- _ => apply negb_false_iff, list_in_true in H
              | H : negb (list_in _ _) = true |- _ => apply negb_true_iff, list_in_false in H
              | H : String.eqb _ "wic" = false |- _ => apply String.eqb_neq in H
              | H : String.eqb _ "wic" = true |- _ => apply String.eqb_eq in H
              end.
  all: repeat split; try done; eauto.
  all: try (left; split; [done|]; left; intros [? ?]; congruence).
  - left. split; [done|]. by right.
  - destruct (changes_overlays st) as [d|]; cbn in *; [|done].
    f_equal. symmetry. by apply delete_id.
  - right. repeat split; done.
Qed.

End dto_remove_facts.

(** ** The claims on [dto_apply] *)

Section dto_apply_claims.
Variable dtc : string -> list string -> option string.
Variable fdtoverlay : state -> string -> list path -> option string.
Variable find_dtbs : state -> string -> string.

Local Abbreviation dto_apply := (dto_apply dtc fdtoverlay find_dtbs).

Lemma dtob_target_basename_nonempty dtos : dtob_target_basename_of dtos ≠ "".
Proof.
  unfold dtob_target_basename_of. intros [_ H]%append_eq_nil. discriminate H.
Qed.

(** C3. Applying, without leave to reapply, an overlay whose target
    basename is in the manifest fails on every working tree and reaches no
    other state than the one it started from: the manifest, the overlays
    directories and all the rest are unchanged. On a tree that passes the
    checks on the image the failure is exit code 1 after the error line
    that the overlay is already applied. *)
Theorem dto_apply_duplicate_is_conflict dtos dtb inc ta st :
  dtob_target_basename_of dtos ∈ applied_overlays st ->
  fst (dto_apply dtos dtb inc false ta st) = st
  /\ (exists e, snd (dto_apply dtos dtb inc false ta st) = inl e)
  /\ (image_ok st ->
      dto_apply dtos dtb inc false ta st
      = (st, inl (SystemExit 1 [already_applied_msg (dtob_target_basename_of dtos)]))).
Proof.
  intros Hdup. apply list_in_true in Hdup.
  assert (wp (dto_apply dtos dtb inc false ta)
            (fun st' r => st' = st /\ exists e, r = inl e) st) as [Hst Hfail].
  { unfold dto_cli.dto_apply. repeat wp_step; eauto. }
  split; [done|]. split; [done|].
  intros [Hunpacked Htype]. apply String.eqb_neq in Htype.
  apply wp_eq. unfold dto_cli.dto_apply.
  repeat wp_step.
  done.
Qed.

(** C4, as the code has it. When the run got to compile the overlay and
    then failed, the manifest, the overlays directory of the changes tree
    and the base image are as before; the compiled blob is still in its
    temporary file. *)
Theorem dto_apply_failure_after_compile dtos dtb inc ar ta st st' e blob :
  image_ok st ->
  ar = true \/ (dtob_target_basename_of dtos ∉ applied_overlays st) ->
  dtc dtos inc = Some blob ->
  dto_apply dtos dtb inc ar ta st = (st', inl e) ->
  overlays_txt st' = overlays_txt st
  /\ changes_overlays st' = changes_overlays st
  /\ base_overlays st' = base_overlays st
  /\ read_file (InTmp (length (tmp_files st))) st' = Some blob.
Proof.
  intros Himage Hgate Hblob Hrun.
  assert (negb ar && list_in (dtob_target_basename_of dtos) (applied_overlays st) = false)
    as Hgate'.
  { destruct Hgate as [->|Hnew]; [done|].
    apply list_in_false in Hnew. rewrite Hnew. apply andb_false_r. }
  pose proof (wp_run _ _ _ _ _ (dto_apply_tree dtc fdtoverlay find_dtbs dtos dtb inc ar ta st) Hrun)
    as (_ & _ & _ & Hbase & Htxt & Hchanges).
  pose proof (wp_run _ _ _ _ _ (dto_apply_tmp dtc fdtoverlay find_dtbs dtos dtb inc ar ta st) Hrun)
    as Htmp.
  cbn beta iota in Htmp.
  repeat split; try done.
  cbn [read_file]. by rewrite (Htmp blob Himage Hgate' Hblob).
Qed.

(** No run that fails writes the manifest or the overlays directory,
    whatever the point of failure. *)
Lemma dto_apply_failure_keeps_tree dtos dtb inc ar ta st st' e :
  dto_apply dtos dtb inc ar ta st = (st', inl e) ->
  overlays_txt st' = overlays_txt st
  /\ changes_overlays st' = changes_overlays st
  /\ base_overlays st' = base_overlays st.
Proof.
  intros Hrun.
  pose proof (wp_run _ _ _ _ _ (dto_apply_tree dtc fdtoverlay find_dtbs dtos dtb inc ar ta st) Hrun)
    as (_ & _ & _ & Hbase & Htxt & Hchanges).
  done.
Qed.

(** The names the manifest lists after a successful run. *)
Lemma dto_apply_success_applied dtos dtb inc ar ta st st' :
  plain_name (dtob_target_basename_of dtos) = true ->
  dto_apply dtos dtb inc ar ta st = (st', inr tt) ->
  applied_overlays st'
  = (if list_in (dtob_target_basename_of dtos) (applied_overlays st)
     then list_remove (dtob_target_basename_of dtos) (applied_overlays st)
     else applied_overlays st) ++ [dtob_target_basename_of dtos].
Proof.
  intros Hplain Hrun.
  pose proof (wp_run _ _ _ _ _ (dto_apply_tree dtc fdtoverlay find_dtbs dtos dtb inc ar ta st) Hrun)
    as (_ & _ & _ & _ & _ & _ & blob & _ & Htxt & _).
  unfold applied_overlays at 1. rewrite Htxt.
  apply parse_overlays_txt_line, Forall_app. split.
  - destruct (list_in _ _); [apply list_remove_Forall|]; apply applied_overlays_carried.
  - constructor; [|constructor]. split; [done|apply dtob_target_basename_nonempty].
Qed.

(** C2. Reapplying an overlay whose target basename the manifest lists
    (once, as the manifest of a working tree does) takes the name out of
    the list and appends it: after a successful run the manifest lists the
    other names in their order and then the name, which so stands once, at
    the end. *)
Theorem dto_apply_reapply_moves_last dtos dtb inc ta st st' :
  dtob_target_basename_of dtos ∈ applied_overlays st ->
  NoDup (applied_overlays st) ->
  dto_apply dtos dtb inc true ta st = (st', inr tt) ->
  overlays_txt st'
  = Some (overlays_txt_line
            (list_remove (dtob_target_basename_of dtos) (applied_overlays st)
             ++ [dtob_target_basename_of dtos]))
  /\ applied_overlays st'
     = list_remove (dtob_target_basename_of dtos) (applied_overlays st)
       ++ [dtob_target_basename_of dtos]
  /\ (dtob_target_basename_of dtos
      ∉ list_remove (dtob_target_basename_of dtos) (applied_overlays st))
  /\ last (applied_overlays st') = Some (dtob_target_basename_of dtos)
  /\ NoDup (applied_overlays st')
  /\ length (applied_overlays st') = length (applied_overlays st).
Proof.
  intros Hin Hnodup Hrun.
  assert (plain_name (dtob_target_basename_of dtos) = true) as Hplain.
  { pose proof (applied_overlays_carried st) as Hall.
    rewrite Forall_forall in Hall. by destruct (Hall _ Hin). }
  pose proof (dto_apply_success_applied _ _ _ _ _ _ _ Hplain Hrun) as Happlied.
  pose proof (wp_run _ _ _ _ _
                (dto_apply_tree dtc fdtoverlay find_dtbs dtos dtb inc true ta st) Hrun)
    as (_ & _ & _ & _ & _ & _ & blob & _ & Htxt & _).
  apply list_in_true in Hin as Hin'. rewrite Hin' in Happlied, Htxt.
  pose proof (list_remove_NoDup_not_elem (dtob_target_basename_of dtos) _ Hnodup)
    as Hgone.
  split; [exact Htxt|].
  rewrite Happlied. repeat split.
  - exact Hgone.
  - apply last_snoc.
  - apply NoDup_app. split; [by apply list_remove_NoDup|].
    split; [|apply NoDup_singleton].
    intros x Hx ->%list_elem_of_singleton. by apply Hgone.
  - rewrite length_app, (list_remove_length _ _ Hin). cbn. lia.
Qed.

End dto_apply_claims.

(** ** Paths *)

Section posixpath_facts.
Import posixpath.

Implicit Types (s t p d : string) (c a : ascii).

Lemma rsplit_char_None c s : rsplit_char c s = None <-> has_char c s = false.
Proof.
  induction s as [|a s IH]; cbn [rsplit_char has_char]; [done|].
  destruct (rsplit_char c s) as [[before after]|].
  - split; [done|]. intros [_ Hs]%orb_false_elim. by apply IH in Hs.
  - destruct (Ascii.eqb a c); [done|]. cbn. by rewrite <- IH.
Qed.

Lemma rsplit_char_Some c s before after :
  rsplit_char c s = Some (before, after) ->
  s = before +:+ String c after /\ has_char c after = false.
Proof.
  revert before. induction s as [|a s IH]; intros before; cbn [rsplit_char]; [done|].
  destruct (rsplit_char c s) as [[before' after']|] eqn:Hs.
  - intros [= <- <-]. destruct (IH before' eq_refl) as [-> Hafter]. done.
  - destruct (Ascii.eqb a c) eqn:Hac; [|done].
    intros [= <- <-]. apply Ascii.eqb_eq in Hac as ->.
    split; [done|]. by apply rsplit_char_None.
Qed.


Lemma split_at_sep_plain d : has_char sep d = false -> split_at_sep d = ("", d).
Proof. intros Hd. unfold split_at_sep. by apply rsplit_char_None in Hd as ->. Qed.


(** The last component of a path has no separator. *)
Lemma basename_no_sep p : has_char sep (basename p) = false.
Proof.
  unfold basename, split_at_sep.
  destruct (rsplit_char sep p) as [[before after]|] eqn:Hp; cbn [snd].
  - by apply rsplit_char_Some in Hp as [_ Hafter].
  - by apply rsplit_char_None.
Qed.

Lemma splitext_root_no_sep d :
  has_char sep d = false -> has_char sep (fst (splitext d)) = false.
Proof.
  intros Hd. unfold splitext. rewrite (split_at_sep_plain d Hd).
  destruct (rsplit_char extsep d) as [[before after]|] eqn:Hdot; [|done].
  destruct (all_char extsep before); [done|]. cbn [fst String.append].
  apply rsplit_char_Some in Hdot as [-> _].
  rewrite has_char_append in Hd. by apply orb_false_elim in Hd as [Hd _].
Qed.

(** The target name of an overlay is a file name: it has no separator. *)
Lemma dtob_target_basename_no_sep dtos :
  has_char sep (dtob_target_basename_of dtos) = false.
Proof.
  unfold dtob_target_basename_of.
  rewrite has_char_append, splitext_root_no_sep by apply basename_no_sep.
  reflexivity.
Qed.









(** An absolute second argument replaces the first. *)
Lemma join_absolute s d : join s (String sep d) = String sep d.
Proof.
  unfold join, startswith. cbn [String.prefix].
  destruct (ascii_dec sep sep); [by destruct d|done].
Qed.

End posixpath_facts.

Section dto_apply_device_tree.
Variable dtc : string -> list string -> option string.
Variable fdtoverlay : state -> string -> list path -> option string.
Variable find_dtbs : state -> string -> string.

Local Abbreviation dto_apply := (dto_apply dtc fdtoverlay find_dtbs).


End dto_apply_device_tree.

(** *** The claims on [dto_apply], run on the example tree *)

(** [a.dtbo] is in the manifest of the example tree; applying [a.dts]
    again is refused. *)
Lemma dto_apply_duplicate_is_conflict_witness :
  dto_apply example_dtc example_fdtoverlay_ok example_find_dtbs
    "overlays/a.dts" None ["device-trees/include"] false true
    example_applied_state
  = (example_applied_state,
     inl (SystemExit 1 [already_applied_msg "a.dtbo"])).
Proof.
  destruct (dto_apply_duplicate_is_conflict
              example_dtc example_fdtoverlay_ok example_find_dtbs
              "overlays/a.dts" None ["device-trees/include"] true
              example_applied_state)
    as (_ & _ & Hconflict).
  - apply list_in_true. vm_compute. reflexivity.
  - apply Hconflict. split; [reflexivity|]. vm_compute. discriminate.
Defined.

(** The test-apply tool rejects the overlay: the run fails after the
    compilation, and the compiled blob stays in its temporary file. *)
Lemma dto_apply_failure_after_compile_witness :
  overlays_txt
    (fst (dto_apply example_dtc example_fdtoverlay_fail example_find_dtbs
            "overlays/a.dts" None ["device-trees/include"] false true
            example_state))
  = overlays_txt example_state
  /\ changes_overlays
       (fst (dto_apply example_dtc example_fdtoverlay_fail example_find_dtbs
               "overlays/a.dts" None ["device-trees/include"] false true
               example_state))
     = changes_overlays example_state
  /\ base_overlays
       (fst (dto_apply example_dtc example_fdtoverlay_fail example_find_dtbs
               "overlays/a.dts" None ["device-trees/include"] false true
               example_state))
     = base_overlays example_state
  /\ read_file (InTmp (length (tmp_files example_state)))
       (fst (dto_apply example_dtc example_fdtoverlay_fail example_find_dtbs
               "overlays/a.dts" None ["device-trees/include"] false true
               example_state))
     = Some "dtbo of overlays/a.dts".
Proof.
  apply (dto_apply_failure_after_compile
           example_dtc example_fdtoverlay_fail example_find_dtbs
           "overlays/a.dts" None ["device-trees/include"] false true
           example_state _
           (SystemExit 1 [not_applicable_msg "overlays/a.dts"])
           "dtbo of overlays/a.dts").
  - split; [reflexivity|]. vm_compute. discriminate.
  - right. apply list_in_false. vm_compute. reflexivity.
  - reflexivity.
  - vm_compute. reflexivity.
Defined.

(** C4 as the spec words it fails: after the failed test the temporary
    compiled blob has not been cleaned up. *)
Lemma dto_apply_failed_test_leaves_tmp_blob :
  snd (dto_apply example_dtc example_fdtoverlay_fail example_find_dtbs
         "overlays/a.dts" None ["device-trees/include"] false true
         example_state)
  = inl (SystemExit 1 [not_applicable_msg "overlays/a.dts"])
  /\ read_file (InTmp 0)
       (fst (dto_apply example_dtc example_fdtoverlay_fail example_find_dtbs
               "overlays/a.dts" None ["device-trees/include"] false true
               example_state))
     ≠ None.
Proof.
  split.
  - vm_compute. reflexivity.
  - vm_compute. discriminate.
Qed.

(** Reapplying [a.dts] on the example tree moves [a.dtbo] behind
    [b.dtbo]. *)
Lemma dto_apply_reapply_moves_last_witness :
  applied_overlays
    (fst (dto_apply example_dtc example_fdtoverlay_ok example_find_dtbs
            "overlays/a.dts" None ["device-trees/include"] true true
            example_applied_state))
  = list_remove "a.dtbo" (applied_overlays example_applied_state) ++ ["a.dtbo"].
Proof.
  destruct (dto_apply_reapply_moves_last
              example_dtc example_fdtoverlay_ok example_find_dtbs
              "overlays/a.dts" None ["device-trees/include"] true
              example_applied_state
              (fst (dto_apply example_dtc example_fdtoverlay_ok example_find_dtbs
                      "overlays/a.dts" None ["device-trees/include"] true true
                      example_applied_state)))
    as (_ & Happlied & _).
  - apply list_in_true. vm_compute. reflexivity.
  - apply (bool_decide_unpack _). vm_compute. exact I.
  - vm_compute. reflexivity.
  - exact Happlied.
Defined.



(** ** The claims on the removals *)

Section dto_remove_claims.

(** C7. On a working tree that passes the checks on the image, removing
    all overlays writes the manifest with the empty directive, deletes the
    overlays directory of the changes tree, and ends normally: the final
    assertion reads the manifest back and finds no name. Nothing else
    changes. *)
Theorem dto_remove_all_clears st :
  image_ok st ->
  dto_remove_all st
  = (set_changes_overlays None (set_overlays_txt (Some ("fdt_overlays=" +:+ nl)) st),
     inr tt)
  /\ overlays_txt (fst (dto_remove_all st)) = Some ("fdt_overlays=" +:+ nl)
  /\ changes_overlays (fst (dto_remove_all st)) = None
  /\ applied_overlays (fst (dto_remove_all st)) = []
  /\ staged_names (fst (dto_remove_all st)) = ∅.
Proof.
  intros [Hunpacked Htype]. apply String.eqb_neq in Htype.
  assert (dto_remove_all st
          = (set_changes_overlays None
               (set_overlays_txt (Some ("fdt_overlays=" +:+ nl)) st), inr tt)) as Hrun.
  { apply wp_eq. unfold dto_remove_all.
    repeat wp_step.
    - done.
    - match goal with H : applied_overlays _ = _ :: _ |- _ => vm_compute in H; discriminate H end. }
  rewrite Hrun. repeat split.
Qed.

(** On a tree that does not pass the checks the command changes nothing. *)
Lemma dto_remove_all_outcome st :
  (image_ok st /\ fst (dto_remove_all st)
                  = set_changes_overlays None
                      (set_overlays_txt (Some ("fdt_overlays=" +:+ nl)) st))
  \/ (~ image_ok st /\ fst (dto_remove_all st) = st).
Proof.
  change (wp dto_remove_all
            (fun st' _ =>
               (image_ok st /\ st' = set_changes_overlays None
                                      (set_overlays_txt (Some ("fdt_overlays=" +:+ nl)) st))
               \/ (~ image_ok st /\ st' = st)) st).
  unfold dto_remove_all.
  repeat wp_step.
  - right. split; [|done]. intros [_ Hty].
    match goal with H : String.eqb _ _ = true |- _ => by apply String.eqb_eq in H end.
  - left. split; [|done]. split; [done|].
    match goal with H : String.eqb _ _ = false |- _ => by apply String.eqb_neq in H end.
  - match goal with H : applied_overlays _ = _ :: _ |- _ => vm_compute in H; discriminate H end.
  - right. split; [|done]. intros [? _]. congruence.
Qed.

Lemma staged_names_read (b : string) (st : state) :
  b ∈ staged_names st <-> is_Some (read_file (InChanges b) st).
Proof.
  unfold staged_names. cbn [read_file].
  destruct (changes_overlays st) as [d|]; cbn.
  - apply elem_of_dom.
  - split; [intros Hb; by apply elem_of_empty in Hb|by intros [? ?]].
Qed.

Lemma staged_names_delete (b : string) (st st' : state) :
  changes_overlays st' = delete b <$> changes_overlays st ->
  staged_names st' = staged_names st ∖ {[b]}.
Proof.
  unfold staged_names. intros ->.
  destruct (changes_overlays st) as [d|]; cbn.
  - apply dom_delete_L.
  - set_solver.
Qed.

Lemma applied_overlays_after_write (st' : state) (l : list string) :
  Forall carried_name l ->
  overlays_txt st' = Some (overlays_txt_line l) ->
  applied_overlays st' = l.
Proof.
  intros Hl Htxt. unfold applied_overlays. rewrite Htxt.
  by apply parse_overlays_txt_line.
Qed.


End dto_remove_claims.

(** [a.dtbo] and [b.dtbo] are applied in the example tree; after the
    removal of all overlays none is listed and no blob is staged. *)
Lemma dto_remove_all_clears_witness :
  applied_overlays (fst (dto_remove_all example_applied_state)) = []
  /\ staged_names (fst (dto_remove_all example_applied_state)) = ∅.
Proof.
  destruct (dto_remove_all_clears example_applied_state)
    as (_ & _ & _ & Happlied & Hstaged).
  - split; [reflexivity|]. vm_compute. discriminate.
  - split; [exact Happlied|exact Hstaged].
Defined.


(** ** Sequences of commands *)

Section consistency.
Variable dtc : string -> list string -> option string.
Variable fdtoverlay : state -> string -> list path -> option string.
Variable find_dtbs : state -> string -> string.

Local Abbreviation dto_apply := (dto_apply dtc fdtoverlay find_dtbs).
Local Abbreviation run_op := (run_op dtc fdtoverlay find_dtbs).
Local Abbreviation run_ops := (run_ops dtc fdtoverlay find_dtbs).

Lemma fresh_consistent st :
  fresh st -> consistent st /\ NoDup (applied_overlays st).
Proof.
  intros [Htxt Hstaged]. unfold consistent, manifest_names, applied_overlays.
  rewrite Htxt, Hstaged. split; [done|constructor].
Qed.

Lemma consistent_same_tree (st st' : state) :
  overlays_txt st' = overlays_txt st ->
  changes_overlays st' = changes_overlays st ->
  consistent st /\ NoDup (applied_overlays st) ->
  consistent st' /\ NoDup (applied_overlays st').
Proof.
  unfold consistent, manifest_names, staged_names, applied_overlays.
  by intros -> ->.
Qed.

(** Applying an overlay whose target name the manifest can carry keeps the
    manifest and the staged blobs in step. *)
Lemma dto_apply_keeps_consistent dtos dtb inc ar ta st :
  plain_name (dtob_target_basename_of dtos) = true ->
  consistent st /\ NoDup (applied_overlays st) ->
  consistent (fst (dto_apply dtos dtb inc ar ta st))
  /\ NoDup (applied_overlays (fst (dto_apply dtos dtb inc ar ta st))).
Proof.
  intros Hplain [Hcons Hnodup].
  destruct (dto_apply dtos dtb inc ar ta st) as [st' [e|[]]] eqn:Hrun; cbn [fst].
  - destruct (dto_apply_failure_keeps_tree dtc fdtoverlay find_dtbs _ _ _ _ _ _ _ _ Hrun)
      as (Htxt & Hch & _).
    by apply (consistent_same_tree st).
  - pose proof (dto_apply_success_applied dtc fdtoverlay find_dtbs _ _ _ _ _ _ _ Hplain Hrun)
      as Happlied.
    pose proof (wp_run _ _ _ _ _
                  (dto_apply_tree dtc fdtoverlay find_dtbs dtos dtb inc ar ta st) Hrun)
      as (_ & _ & _ & _ & _ & _ & blob & _ & _ & Hch).
    assert (staged_names st' = {[dtob_target_basename_of dtos]} ∪ manifest_names st)
      as Hstaged.
    { rewrite Hcons. unfold staged_names. rewrite Hch. cbn [default].
      apply dom_insert_L. }
    unfold consistent, manifest_names in *. rewrite Hstaged, Happlied.
    rewrite list_to_set_app_L. cbn [list_to_set].
    destruct (list_in _ _) eqn:Hin.
    + split.
      * rewrite list_remove_to_set by done.
        apply list_in_true, (elem_of_list_to_set (C := gset string)) in Hin.
        apply set_eq. intros x.
        destruct (decide (x = dtob_target_basename_of dtos)); set_solver.
      * apply NoDup_app. split; [by apply list_remove_NoDup|].
        split; [|apply NoDup_singleton].
        intros x Hx ->%list_elem_of_singleton.
        by apply (list_remove_NoDup_not_elem (dtob_target_basename_of dtos)
                                             (applied_overlays st)).
    + split; [set_solver|].
      apply NoDup_app. split; [done|]. split; [|apply NoDup_singleton].
      intros x Hx ->%list_elem_of_singleton. by apply list_in_false in Hin.
Qed.

Lemma dto_remove_single_keeps_consistent b pr st :
  consistent st /\ NoDup (applied_overlays st) ->
  consistent (fst (dto_remove_single b pr st))
  /\ NoDup (applied_overlays (fst (dto_remove_single b pr st))).
Proof.
  intros [Hcons Hnodup].
  pose proof (dto_remove_single_outcome b pr st) as Hout. unfold wp in Hout.
  destruct (dto_remove_single b pr st) as [st' r]. cbn [fst snd] in *.
  destruct Hout as (_ & _ & _ & _ & _ & _ & Hr).
  destruct r as [e|[|]].
  - destruct Hr as [[-> _]|(_ & Hin & _ & _ & _ & Hnone & _)]; [done|].
    apply (elem_of_list_to_set (C := gset string)) in Hin.
    unfold consistent, manifest_names in Hcons. rewrite Hcons in Hin.
    apply staged_names_read in Hin. rewrite Hnone in Hin. by destruct Hin.
  - destruct Hr as (_ & Hin & Htxt & Hch & _).
    assert (applied_overlays st' = list_remove b (applied_overlays st)) as Happlied.
    { apply applied_overlays_after_write; [|done].
      apply list_remove_Forall, applied_overlays_carried. }
    split.
    + unfold consistent, manifest_names in *.
      rewrite Happlied, (staged_names_delete b st st' Hch), <- Hcons.
      by apply list_remove_to_set.
    + rewrite Happlied. by apply list_remove_NoDup.
  - by destruct Hr as (-> & _).
Qed.

Lemma dto_remove_all_keeps_consistent st :
  consistent st /\ NoDup (applied_overlays st) ->
  consistent (fst (dto_remove_all st))
  /\ NoDup (applied_overlays (fst (dto_remove_all st))).
Proof.
  intros Hinv.
  destruct (dto_remove_all_outcome st) as [[_ ->]|[_ ->]]; [|done].
  split; [done|constructor].
Qed.

Lemma run_op_keeps_consistent o st :
  plain_op o ->
  consistent st /\ NoDup (applied_overlays st) ->
  consistent (run_op o st) /\ NoDup (applied_overlays (run_op o st)).
Proof.
  destruct o as [dtos dtb inc ar ta|b pr|]; cbn [plain_op dto_cli.run_op].
  - apply dto_apply_keeps_consistent.
  - intros _. apply dto_remove_single_keeps_consistent.
  - intros _. apply dto_remove_all_keeps_consistent.
Qed.

Lemma run_ops_keeps_consistent ops st :
  Forall plain_op ops ->
  consistent st /\ NoDup (applied_overlays st) ->
  consistent (run_ops ops st) /\ NoDup (applied_overlays (run_ops ops st)).
Proof.
  intros Hops. revert st.
  induction Hops as [|o ops Ho Hops IH]; intros st Hinv; [done|].
  cbn [dto_cli.run_ops fold_left]. apply IH. by apply run_op_keeps_consistent.
Qed.

(** C1, as the code has it. Start from a fresh working tree and run any
    sequence of applications and removals in which every overlay applied
    has a target basename without space or line break. After each command
    of the sequence, the names the manifest lists are the names of the
    blob files in the overlays directory of the changes tree, and no name
    is listed twice. *)
Theorem overlay_ops_keep_manifest_and_blobs_in_step ops st n :
  fresh st ->
  Forall plain_op ops ->
  consistent (run_ops (take n ops) st)
  /\ NoDup (applied_overlays (run_ops (take n ops) st)).
Proof.
  intros Hfresh Hops.
  apply run_ops_keeps_consistent.
  - by apply Forall_take.
  - by apply fresh_consistent.
Qed.

End consistency.

(** Three commands on the example tree: apply [a.dts], apply [b.dts],
    remove [a.dtbo]. *)
Lemma overlay_ops_keep_manifest_and_blobs_in_step_witness :
  consistent
    (run_ops example_dtc example_fdtoverlay_ok example_find_dtbs
       (take 3
          [OpApply "overlays/a.dts" None ["device-trees/include"] false true;
           OpApply "overlays/b.dts" None ["device-trees/include"] false true;
           OpRemoveSingle "a.dtbo" true;
           OpRemoveAll])
       example_state)
  /\ NoDup
       (applied_overlays
          (run_ops example_dtc example_fdtoverlay_ok example_find_dtbs
             (take 3
                [OpApply "overlays/a.dts" None ["device-trees/include"] false true;
                 OpApply "overlays/b.dts" None ["device-trees/include"] false true;
                 OpRemoveSingle "a.dtbo" true;
                 OpRemoveAll])
             example_state)).
Proof.
  apply (overlay_ops_keep_manifest_and_blobs_in_step
           example_dtc example_fdtoverlay_ok example_find_dtbs).
  - split; reflexivity.
  - repeat constructor.
Defined.

(** C1 as the spec words it fails for a source whose name has a space: the
    target basename [a b.dtbo] is written into the space-separated
    manifest, which then lists [a] and [b.dtbo], while the staged blob is
    [a b.dtbo]. *)
Lemma overlay_with_space_breaks_consistency :
  fresh example_state
  /\ ~ consistent
       (run_ops example_dtc example_fdtoverlay_ok example_find_dtbs
          [OpApply "overlays/a b.dts" None ["device-trees/include"] false true]
          example_state).
Proof.
  split; [split; reflexivity|].
  intros Hcons. apply (bool_decide_pack _) in Hcons.
  vm_compute in Hcons. exact Hcons.
Qed.

(** *** Commits whose module directory is a directory of a file system *)

Section well_formed_commit.
Import ostree.

Variable repo : repo.
Variable commit : string.

Lemma resolve_relative_path_app root p q :
  resolve_relative_path root (p ++ q)
  = resolve_relative_path root p ≫= (fun t => resolve_relative_path t q).
Proof.
  revert root. induction p as [|c p IH]; intros root; [done|].
  cbn [app resolve_relative_path].
  destruct root as [ty|children]; [done|].
  destruct (get_child c children); [apply IH|done].
Qed.

Lemma realpath_module_dir n :
  file_name n ->
  realpath ("/usr/lib/modules/" +:+ n) = ["usr"; "lib"; "modules"; n].
Proof.
  intros (Hne & Hdot & Hsep). unfold realpath.
  change ("/usr/lib/modules/" +:+ n)
    with ("" +:+ String "/" ("usr" +:+ String "/" ("lib" +:+ String "/"
            ("modules" +:+ String "/" n)))).
  rewrite !split_char_append_sep by reflexivity.
  rewrite split_char_no_sep by done.
  cbn [List.filter nonempty String.eqb Ascii.eqb Bool.eqb negb andb].
  apply nonempty_true in Hne. rewrite Hne.
  apply String.eqb_neq in Hdot. rewrite Hdot. reflexivity.
Qed.

Lemma get_child_elem n t children :
  NoDup (map fst children) -> (n, t) ∈ children -> get_child n children = Some t.
Proof.
  induction children as [|[m u] children IH]; cbn [map fst get_child].
  - by intros _ ?%elem_of_nil.
  - intros [Hm Hnodup]%NoDup_cons [[= <- <-]|Hin]%elem_of_cons.
    + by rewrite String.eqb_refl.
    + destruct (String.eqb_spec m n) as [->|_]; [|by apply IH].
      destruct Hm. apply list_elem_of_fmap. by exists (n, t).
Qed.

Lemma ls_modules children :
  modules_children repo commit = Some children ->
  ls repo "/usr/lib/modules" commit
  = inr (map (fun c => {| name := fst c;
                          type := _convert_gio_file_type (get_file_type (snd c)) |})
             children).
Proof.
  unfold modules_children, ls.
  change (realpath "/usr/lib/modules") with ["usr"; "lib"; "modules"].
  destruct (repo commit) as [root|]; [|done].
  destruct (resolve_relative_path root _) as [[ty|children']|]; try done.
  intros [= ->]. f_equal. apply map_ext. by intros [n t].
Qed.

(** In such a commit every entry of [/usr/lib/modules] that reports the
    file type of a directory can itself be listed. *)
Lemma ls_module_dir children d :
  modules_children repo commit = Some children ->
  directory_entries children ->
  d ∈ map (fun c => {| name := fst c;
                       type := _convert_gio_file_type (get_file_type (snd c)) |})
          children ->
  is_directory d = true ->
  exists files, ls repo ("/usr/lib/modules/" +:+ name d) commit = inr files.
Proof.
  intros Hmodules [Hnodup Hentries] Hd Hdir.
  apply list_elem_of_fmap in Hd as ([n t] & -> & Hin). cbn [name fst snd] in *.
  rewrite Forall_forall in Hentries.
  destruct (Hentries _ Hin) as [Hname Hleaf]. cbn [fst snd] in *.
  unfold ls. rewrite (realpath_module_dir n Hname).
  unfold modules_children in Hmodules.
  destruct (repo commit) as [root|]; [|done].
  change ["usr"; "lib"; "modules"; n] with (["usr"; "lib"; "modules"] ++ [n]).
  rewrite resolve_relative_path_app.
  destruct (resolve_relative_path root _) as [[ty|children']|]; try done.
  injection Hmodules as ->. cbn [mbind option_bind resolve_relative_path].
  rewrite (get_child_elem n t children Hnodup Hin).
  destruct t as [ty|sub]; [|by eexists].
  destruct ty; try discriminate Hdir. done.
Qed.

(** On such a commit kernel discovery always answers: the name of the
    first directory of [/usr/lib/modules] that lists a [vmlinuz] entry, or
    the empty string. *)
Lemma get_kernel_version_total children :
  modules_children repo commit = Some children ->
  directory_entries children ->
  exists version, get_kernel_version repo commit = inr version.
Proof.
  intros Hmodules Hentries.
  unfold get_kernel_version. rewrite (ls_modules _ Hmodules).
  destruct (find_kernel_dir_first repo commit
              (List.filter is_directory
                 (map (fun c => {| name := fst c;
                                   type := _convert_gio_file_type (get_file_type (snd c)) |})
                      children)))
    as [(_ & d & _ & _ & _ & _ & Hres)|(_ & Hres)].
  - intros d [Hd Hdir]%list_elem_of_In%filter_In.
    apply list_elem_of_In in Hd. by eapply ls_module_dir.
  - by exists (name d).
  - by exists "".
Qed.

End well_formed_commit.

(** * Further properties of the overlay commands *)

Import dto_commands.

Lemma wp_mono {A} (m : M A) (Q Q' : state -> error + A -> Prop) st :
  wp m Q st -> (forall st' r, Q st' r -> Q' st' r) -> wp m Q' st.
Proof. unfold wp. auto. Qed.

Lemma locate_overlay_frame (st st' : state) b :
  changes_overlays st' = changes_overlays st ->
  base_overlays st' = base_overlays st ->
  locate_overlay st' b = locate_overlay st b.
Proof. unfold locate_overlay, read_file. by intros -> ->. Qed.

Lemma locate_overlays_frame (st st' : state) l :
  changes_overlays st' = changes_overlays st ->
  base_overlays st' = base_overlays st ->
  locate_overlays st' l = locate_overlays st l.
Proof.
  intros Hc Hb. induction l as [|b l IH]; [done|].
  cbn [locate_overlays]. by rewrite IH, (locate_overlay_frame st st' b).
Qed.

Lemma gate_open ar b (l : list string) :
  ar = true \/ b ∉ l -> negb ar && list_in b l = false.
Proof.
  intros [->|Hnew]; [done|].
  apply list_in_false in Hnew. rewrite Hnew. apply andb_false_r.
Qed.

Lemma kept_names b (l : list string) :
  (if list_in b l then list_remove b l else l) = list_remove b l.
Proof.
  destruct (list_in b l) eqn:Hin; [done|].
  apply list_in_false in Hin. by rewrite list_remove_not_elem.
Qed.
Section dto_apply_more.
Variable dtc : string -> list string -> option string.
Variable fdtoverlay : state -> string -> list path -> option string.
Variable find_dtbs : state -> string -> string.

Local Abbreviation dto_apply := (dto_apply dtc fdtoverlay find_dtbs).

Theorem dto_apply_compile_failure dtos dtb inc ar ta st :
  image_ok st ->
  ar = true \/ dtob_target_basename_of dtos ∉ applied_overlays st ->
  dtc dtos inc = None ->
  dto_apply dtos dtb inc ar ta st
  = (set_calls (calls st ++ [call_build_dts dtos inc (InTmp (length (tmp_files st)))])
       (set_tmp_files (tmp_files st ++ [Some ""]) st),
     inl (SystemExit 1 ["error: cannot apply " +:+ dtos +:+ "."])).
Proof.
  intros [Hunpacked Htype] Hgate%gate_open Hdtc. apply String.eqb_neq in Htype.
  apply wp_eq. unfold dto_cli.dto_apply.
  repeat wp_step.
  done.
Qed.

Theorem dto_apply_unknown_device_tree dtos dtb inc ar st blob :
  image_ok st ->
  ar = true \/ dtob_target_basename_of dtos ∉ applied_overlays st ->
  dtc dtos inc = Some blob ->
  truthy dtb = false ->
  snd (current_dtb st) = false ->
  (exists st',
      dto_apply dtos dtb inc ar true st
      = (st', inl (SystemExit 1
                     ["error: could not find the device tree to check the overlay against.";
                      "Please use --device-tree to pass one of the device trees below or use --force to bypass checking:";
                      find_dtbs st' (posixpath.dirname (fst (current_dtb st)))]))
      /\ overlays_txt st' = overlays_txt st
      /\ changes_overlays st' = changes_overlays st
      /\ calls st' = calls st ++ [call_build_dts dtos inc (InTmp (length (tmp_files st)))])
  /\ snd (dto_apply dtos dtb inc ar false st) = inr tt.
Proof.
  intros [Hunpacked Htype] Hgate%gate_open Hdtc Hdtb Hexact.
  apply String.eqb_neq in Htype.
  split.
  - exists (set_tmp_files
              (<[length (tmp_files st) := Some blob]> (tmp_files st ++ [Some ""]))
              (set_calls
                 (calls st ++ [call_build_dts dtos inc (InTmp (length (tmp_files st)))])
                 (set_tmp_files (tmp_files st ++ [Some ""]) st))).
    split; [|done].
    apply wp_eq. unfold dto_cli.dto_apply.
    repeat wp_step.
    all: simplify_eq.
    all: try match goal with
             | H : negb (snd (current_dtb _)) = false |- _ =>
                 rewrite Hexact in H; discriminate H
             end.
    done.
  - change (wp (dto_apply dtos dtb inc ar false) (fun _ r => r = inr tt) st).
    unfold dto_cli.dto_apply.
    repeat wp_step.
    all: tmp_simpl; simplify_eq; done.
Qed.

Lemma dto_apply_test_calls dtos dtb inc ar st :
  wp (dto_apply dtos dtb inc ar true)
    (fun st' r =>
       r = inr tt ->
       exists paths,
         locate_overlays st (list_remove (dtob_target_basename_of dtos) (applied_overlays st))
         = inr paths
         /\ calls st'
            = calls st
              ++ [call_build_dts dtos inc (InTmp (length (tmp_files st)));
                  call_modify_dtb
                    (if truthy dtb
                     then posixpath.join (posixpath.dirname (fst (current_dtb st)))
                                         (default "" dtb)
                     else fst (current_dtb st))
                    (paths ++ [InTmp (length (tmp_files st))])
                    (InTmp (S (length (tmp_files st))))]) st.
Proof.
  unfold dto_cli.dto_apply.
  repeat wp_step.
  all: try done.
  all: intros _.
  all: rewrite ?kept_names in *.
  all: match goal with
       | H : locate_overlays _ _ = inr ?l |- _ =>
           exists l; rewrite (locate_overlays_frame st) in H by done
       end.
  all: (split; [done|]).
  all: rewrite <- ?app_assoc; cbn [app].
  all: repeat (rewrite length_insert || rewrite length_app); cbn [length].
  all: by rewrite Nat.add_1_r.
Qed.

Lemma locate_overlays_Forall2 (st : state) l paths :
  locate_overlays st l = inr paths ->
  Forall2 (fun b p => locate_overlay st b = inr p) l paths.
Proof.
  revert paths. induction l as [|b l IH]; intros paths; cbn [locate_overlays].
  - intros [= <-]. constructor.
  - destruct (locate_overlay st b) as [e|p] eqn:Hb; [done|].
    destruct (locate_overlays st l) as [e|ps]; [done|].
    intros [= <-]. constructor; [done|]. by apply IH.
Qed.

Theorem dto_apply_test_chain dtos dtb inc ar st st' :
  dto_apply dtos dtb inc ar true st = (st', inr tt) ->
  exists paths,
    Forall2 (fun b p => locate_overlay st b = inr p)
            (list_remove (dtob_target_basename_of dtos) (applied_overlays st)) paths
    /\ calls st'
       = calls st
         ++ [call_build_dts dtos inc (InTmp (length (tmp_files st)));
             call_modify_dtb
               (if truthy dtb
                then posixpath.join (posixpath.dirname (fst (current_dtb st)))
                                    (default "" dtb)
                else fst (current_dtb st))
               (paths ++ [InTmp (length (tmp_files st))])
               (InTmp (S (length (tmp_files st))))].
Proof.
  intros Hrun.
  destruct (wp_run _ _ _ _ _ (dto_apply_test_calls dtos dtb inc ar st) Hrun eq_refl)
    as (paths & Hpaths & Hcalls).
  exists paths. split; [|done]. by apply locate_overlays_Forall2.
Qed.

Theorem dto_apply_stages_compiled_blob dtos dtb inc ar ta st st' :
  dto_apply dtos dtb inc ar ta st = (st', inr tt) ->
  exists blob,
    dtc dtos inc = Some blob
    /\ read_file (InChanges (dtob_target_basename_of dtos)) st' = Some blob
    /\ (forall b, b ≠ dtob_target_basename_of dtos ->
               read_file (InChanges b) st' = read_file (InChanges b) st)
    /\ (forall b, read_file (InBase b) st' = read_file (InBase b) st)
    /\ read_file (InTmp (length (tmp_files st))) st' = None.
Proof.
  intros Hrun.
  pose proof (wp_run _ _ _ _ _ (dto_apply_tree dtc fdtoverlay find_dtbs dtos dtb inc ar ta st) Hrun)
    as (_ & _ & _ & Hbase & _ & _ & blob & Hblob & _ & Hchanges).
  pose proof (wp_run _ _ _ _ _ (dto_apply_tmp dtc fdtoverlay find_dtbs dtos dtb inc ar ta st) Hrun)
    as Htmp.
  cbn beta iota in Htmp.
  exists blob. split; [done|]. cbn [read_file]. rewrite Hchanges, Hbase, Htmp. cbn.
  split; [by rewrite lookup_insert_eq|].
  split; [|done].
  intros b Hb. rewrite lookup_insert_ne by done.
  by destruct (changes_overlays st).
Qed.

Theorem dto_apply_then_remove_restores dtos dtb inc ar ta pr st st1 :
  plain_name (dtob_target_basename_of dtos) = true ->
  dtob_target_basename_of dtos ∉ applied_overlays st ->
  dto_apply dtos dtb inc ar ta st = (st1, inr tt) ->
  exists st2,
    dto_remove_single (dtob_target_basename_of dtos) pr st1 = (st2, inr true)
    /\ applied_overlays st2 = applied_overlays st
    /\ staged_names st2 = staged_names st ∖ {[dtob_target_basename_of dtos]}
    /\ base_overlays st2 = base_overlays st.
Proof.
  intros Hplain Hnew Hrun.
  pose proof (dto_apply_success_applied dtc fdtoverlay find_dtbs _ _ _ _ _ _ _ Hplain Hrun)
    as Happlied.
  apply list_in_false in Hnew as Hnew'. rewrite Hnew' in Happlied.
  pose proof (wp_run _ _ _ _ _ (dto_apply_tree dtc fdtoverlay find_dtbs dtos dtb inc ar ta st) Hrun)
    as (Hu & Hty & _ & Hbase & [Hu' Hty'] & _ & blob & _ & _ & Hchanges).
  assert (image_ok st1) as Himage by (split; congruence).
  assert (dtob_target_basename_of dtos ∈ applied_overlays st1) as Hin.
  { rewrite Happlied. apply elem_of_app. right. by apply list_elem_of_singleton. }
  assert (list_remove (dtob_target_basename_of dtos) (applied_overlays st1)
          = applied_overlays st) as Hrest.
  { rewrite Happlied. clear -Hnew.
    induction (applied_overlays st) as [|x l IH]; cbn.
    - by rewrite String.eqb_refl.
    - apply not_elem_of_cons in Hnew as [Hx Hl].
      destruct (String.eqb_spec x (dtob_target_basename_of dtos)) as [->|_]; [done|].
      by rewrite IH. }
  destruct (dto_remove_single (dtob_target_basename_of dtos) pr st1) as [st2 r] eqn:Hrm.
  pose proof (wp_run _ _ _ _ _
                (dto_remove_single_outcome (dtob_target_basename_of dtos) pr st1) Hrm)
    as (_ & _ & _ & Hbase2 & _ & _ & Hcase).
  destruct r as [e|[|]].
  - destruct Hcase as [[_ [Hbad|(Hnot & _)]]|(_ & _ & _ & _ & _ & Hnone & _)]; [done..|].
    cbn [read_file] in Hnone. rewrite Hchanges in Hnone. cbn in Hnone.
    by rewrite lookup_insert_eq in Hnone.
  - destruct Hcase as (_ & _ & Htxt & Hch & _).
    exists st2. split; [done|]. split.
    + rewrite Hrest in Htxt.
      apply (applied_overlays_after_write _ _ (applied_overlays_carried st) Htxt).
    + split; [|congruence].
      rewrite (staged_names_delete _ _ _ Hch). unfold staged_names at 1.
      rewrite Hchanges. cbn. rewrite dom_insert_L. unfold staged_names. set_solver.
  - by destruct Hcase as (_ & Hnot & _).
Qed.

End dto_apply_more.
Section dto_commands_facts.
Variable dtc : string -> list string -> option string.
Variable fdtoverlay : state -> string -> list path -> option string.
Variable find_dtbs : state -> string -> string.

Local Abbreviation dto_apply := (dto_apply dtc fdtoverlay find_dtbs).
Local Abbreviation do_dto_apply := (do_dto_apply dtc fdtoverlay find_dtbs).

Lemma do_dto_apply_with_source args st :
  truthy (dtos_path args) = true ->
  do_dto_apply args st
  = dto_apply (default "" (dtos_path args)) (device_tree args)
      (include_dirs_or_default (include_dirs args)) false (negb (force args)) st.
Proof. intros H. unfold dto_commands.do_dto_apply, bind. by rewrite H. Qed.

Lemma do_dto_apply_without_source args st :
  truthy (dtos_path args) = false ->
  do_dto_apply args st
  = (st, inl (AssertionError "panic: missing overlay source parameter")).
Proof. intros H. unfold dto_commands.do_dto_apply, bind. by rewrite H. Qed.

Theorem do_dto_apply_again_is_refused args args' st st1 :
  plain_name (dtob_target_basename_of (default "" (dtos_path args))) = true ->
  do_dto_apply args st = (st1, inr tt) ->
  truthy (dtos_path args') = true ->
  dtob_target_basename_of (default "" (dtos_path args')) = dtob_target_basename_of (default "" (dtos_path args)) ->
  do_dto_apply args' st1
  = (st1, inl (SystemExit 1 [already_applied_msg (dtob_target_basename_of (default "" (dtos_path args)))])).
Proof.
  intros Hplain Hrun Hsrc' Htarget.
  destruct (truthy (dtos_path args)) eqn:Hsrc;
    [|by rewrite do_dto_apply_without_source in Hrun].
  rewrite do_dto_apply_with_source in Hrun by done.
  pose proof (dto_apply_success_applied dtc fdtoverlay find_dtbs _ _ _ _ _ _ _ Hplain Hrun)
    as Happlied.
  pose proof (wp_run _ _ _ _ _ (dto_apply_tree dtc fdtoverlay find_dtbs _ _ _ _ _ st) Hrun)
    as (Hu & Hty & _ & _ & [Hu' Hty'] & _).
  assert (list_in (dtob_target_basename_of (default "" (dtos_path args)))
                  (applied_overlays st1) = true) as Hin.
  { apply list_in_true. rewrite Happlied. apply elem_of_app. right.
    by apply list_elem_of_singleton. }
  rewrite do_dto_apply_with_source by done.
  rewrite <- Hu in Hu'. rewrite <- Hty in Hty'. apply String.eqb_neq in Hty'.
  rewrite <- Htarget in *.
  apply wp_eq. unfold dto_cli.dto_apply.
  repeat wp_step.
  done.
Qed.

Theorem do_dto_apply_force args st :
  force args = true ->
  truthy (dtos_path args) = true ->
  (snd (do_dto_apply args st) = inr tt
   <-> image_ok st
       /\ (dtob_target_basename_of (default "" (dtos_path args)) ∉ applied_overlays st)
       /\ is_Some (dtc (default "" (dtos_path args))
                       (include_dirs_or_default (include_dirs args))))
  /\ (forall p ovs out,
         call_modify_dtb p ovs out ∈ calls (fst (do_dto_apply args st)) ->
         call_modify_dtb p ovs out ∈ calls st).
Proof.
  intros Hforce Hsrc.
  rewrite do_dto_apply_with_source by done. rewrite Hforce. cbn [negb].
  set (dtos := default "" (dtos_path args)).
  set (inc := include_dirs_or_default (include_dirs args)).
  destruct (dto_apply dtos (device_tree args) inc false false st) as [st' r] eqn:Hrun.
  cbn [fst snd]. split.
  - split.
    + intros ->.
      pose proof (wp_run _ _ _ _ _ (dto_apply_tree dtc fdtoverlay find_dtbs _ _ _ _ _ st) Hrun)
        as (_ & _ & _ & _ & Himage & Hgate & blob & Hblob & _).
      split; [done|]. split; [by apply list_in_false in Hgate|by exists blob].
    + intros ([Hu Hty] & Hnew%list_in_false & [blob Hblob]).
      apply String.eqb_neq in Hty.
      assert (wp (dto_apply dtos (device_tree args) inc false false)
                (fun _ r => r = inr tt) st) as Hok.
      { unfold dto_cli.dto_apply.
        repeat wp_step.
        all: tmp_simpl; simplify_eq; done. }
      apply (wp_run _ _ _ _ _ Hok Hrun).
  - intros p ovs out Hin.
    pose proof (wp_run _ _ _ _ _ (dto_apply_calls dtc fdtoverlay find_dtbs _ _ _ _ _ st) Hrun)
      as (new & Hcalls & Hmodify & _).
    rewrite Hcalls in Hin. apply elem_of_app in Hin as [Hin|Hin]; [done|].
    by destruct (Hmodify _ _ _ Hin).
Qed.

End dto_commands_facts.

Theorem do_dto_remove_bad_arguments args st :
  all args = truthy (dtob_basename args) ->
  do_dto_remove args st
  = (st, inl (SystemExit 1 [if all args then both_specified_msg
                            else none_specified_msg])).
Proof.
  unfold do_dto_remove. intros ->. by destruct (truthy (dtob_basename args)).
Qed.

Lemma dto_remove_all_run st :
  dto_remove_all st
  = if unpack_executed st
    then if String.eqb (image_type st) "wic"
         then (st, inl (InvalidDataError wic_msg))
         else (set_changes_overlays None
                 (set_overlays_txt (Some ("fdt_overlays=" +:+ nl)) st), inr tt)
    else (st, inl (InvalidOperation "images unpack was not executed")).
Proof.
  destruct (unpack_executed st) eqn:Hu;
    [destruct (String.eqb (image_type st) "wic") eqn:Hty|].
  all: apply wp_eq; unfold dto_remove_all.
  all: repeat wp_step; done.
Qed.

Theorem do_dto_remove_all_idempotent st :
  do_dto_remove {| all := true; dtob_basename := None |}
    (fst (do_dto_remove {| all := true; dtob_basename := None |} st))
  = do_dto_remove {| all := true; dtob_basename := None |} st.
Proof.
  unfold do_dto_remove. cbn [all dtob_basename truthy andb].
  rewrite (dto_remove_all_run st).
  destruct (unpack_executed st) eqn:Hu.
  - destruct (String.eqb (image_type st) "wic") eqn:Hty; cbn [fst].
    + by rewrite dto_remove_all_run, Hu, Hty.
    + rewrite dto_remove_all_run. state_simpl. by rewrite Hu, Hty.
  - cbn [fst]. by rewrite dto_remove_all_run, Hu.
Qed.

Theorem do_dto_remove_after_all_is_refused name st st1 :
  do_dto_remove {| all := true; dtob_basename := None |} st = (st1, inr tt) ->
  name ≠ "" ->
  do_dto_remove {| all := false; dtob_basename := Some name |} st1
  = (st1, inl (SystemExit 1 [already_not_applied_msg name])).
Proof.
  unfold do_dto_remove. cbn [all dtob_basename truthy andb negb default].
  rewrite dto_remove_all_run. intros Hrun Hname%nonempty_true. rewrite Hname.
  destruct (unpack_executed st) eqn:Hu; [|done].
  destruct (String.eqb (image_type st) "wic") eqn:Hty; [done|].
  injection Hrun as <-.
  apply wp_eq. unfold dto_remove_single.
  repeat wp_step.
  all: try done.
  all: match goal with H : negb (list_in _ _) = false |- _ =>
         vm_compute in H; discriminate H end.
Qed.
Lemma do_dto_status_run st :
  do_dto_status st
  = (st,
     if unpack_executed st
     then if String.eqb (image_type st) "wic"
          then inl (InvalidDataError wic_msg)
          else inr (status_header (current_dtb st)
                    :: map (fun overlay_basename => "- " +:+ overlay_basename)
                         (applied_overlays st))
     else inl (InvalidOperation "images unpack was not executed")).
Proof.
  destruct (unpack_executed st) eqn:Hu;
    [destruct (String.eqb (image_type st) "wic") eqn:Hty|].
  all: apply wp_eq; unfold do_dto_status.
  all: repeat wp_step; done.
Qed.

Theorem do_dto_status_reads_only st st' r :
  do_dto_status st = (st', r) ->
  st' = st
  /\ match r with
     | inl _ => ~ image_ok st
     | inr lines =>
         image_ok st
         /\ length lines = S (length (applied_overlays st))
         /\ head lines
            = Some (if snd (current_dtb st)
                    then "Enabled overlays over device tree "
                         +:+ posixpath.basename (fst (current_dtb st)) +:+ ":"
                    else "Enabled overlays over unknown device tree:")
         /\ (forall i b,
               applied_overlays st !! i = Some b <-> lines !! S i = Some ("- " +:+ b))
     end.
Proof.
  rewrite do_dto_status_run. intros [= <- <-]. split; [done|].
  destruct (unpack_executed st) eqn:Hu; [|intros [? _]; congruence].
  destruct (String.eqb (image_type st) "wic") eqn:Hty.
  { intros [_ ?]. by apply String.eqb_eq in Hty. }
  split; [by apply image_ok_intro|].
  split; [cbn [length]; by rewrite length_map|].
  split; [done|].
  intros i b.
  change (map (fun overlay_basename => "- " +:+ overlay_basename) (applied_overlays st))
    with ((fun overlay_basename => "- " +:+ overlay_basename) <$> applied_overlays st).
  rewrite lookup_cons. rewrite list_lookup_fmap.
  destruct (applied_overlays st !! i) as [b'|]; cbn; [|done].
  split; [by intros [= ->]|].
  intros [= H]. by simplify_eq.
Qed.

Section status_after_commands.
Variable dtc : string -> list string -> option string.
Variable fdtoverlay : state -> string -> list path -> option string.
Variable find_dtbs : state -> string -> string.

Theorem do_dto_status_after_apply args st st1 :
  plain_name (dtob_target_basename_of (default "" (dtos_path args))) = true ->
  do_dto_apply dtc fdtoverlay find_dtbs args st = (st1, inr tt) ->
  exists before,
    do_dto_status st = (st, inr (status_header (current_dtb st) :: before))
    /\ do_dto_status st1
       = (st1, inr (status_header (current_dtb st)
                    :: before ++ ["- " +:+ dtob_target_basename_of (default "" (dtos_path args))])).
Proof.
  intros Hplain Hrun.
  destruct (truthy (dtos_path args)) eqn:Hsrc;
    [|by rewrite do_dto_apply_without_source in Hrun].
  rewrite do_dto_apply_with_source in Hrun by done.
  pose proof (dto_apply_success_applied dtc fdtoverlay find_dtbs _ _ _ _ _ _ _ Hplain Hrun)
    as Happlied.
  pose proof (wp_run _ _ _ _ _ (dto_apply_tree dtc fdtoverlay find_dtbs _ _ _ _ _ st) Hrun)
    as (Hu & Hty & Hdtb & _ & [Hu' Hty'] & Hgate & _).
  cbn [negb andb] in Hgate. rewrite Hgate in Happlied.
  apply String.eqb_neq in Hty'.
  exists (map (fun overlay_basename => "- " +:+ overlay_basename) (applied_overlays st)).
  rewrite !do_dto_status_run, Hu, Hty, Hdtb, Hu', Hty', Happlied.
  split; [done|]. by rewrite map_app.
Qed.

End status_after_commands.

Theorem do_dto_status_after_remove_all st st1 :
  do_dto_remove {| all := true; dtob_basename := None |} st = (st1, inr tt) ->
  do_dto_status st1 = (st1, inr [status_header (current_dtb st)]).
Proof.
  unfold do_dto_remove. cbn [all dtob_basename truthy andb].
  rewrite dto_remove_all_run, do_dto_status_run.
  destruct (unpack_executed st) eqn:Hu; [|done].
  destruct (String.eqb (image_type st) "wic") eqn:Hty; [done|].
  intros [= <-]. state_simpl. by rewrite Hu, Hty.
Qed.
Theorem dto_remove_single_missing_blob b pr st :
  image_ok st ->
  b ∈ applied_overlays st ->
  NoDup (applied_overlays st) ->
  read_file (InChanges b) st = None ->
  read_file (InBase b) st = None ->
  dto_remove_single b pr st
  = (set_overlays_txt (Some (overlays_txt_line (list_remove b (applied_overlays st)))) st,
     inl (NotFound b))
  /\ dto_remove_single b true (fst (dto_remove_single b pr st))
     = (fst (dto_remove_single b pr st),
        inl (SystemExit 1 [already_not_applied_msg b])).
Proof.
  intros [Hu Hty] Hin Hnodup Hchanges Hbase.
  apply String.eqb_neq in Hty. apply list_in_true in Hin as Hin'.
  assert (dto_remove_single b pr st
          = (set_overlays_txt
               (Some (overlays_txt_line (list_remove b (applied_overlays st)))) st,
             inl (NotFound b))) as Hrun.
  { apply wp_eq. unfold dto_remove_single.
    repeat wp_step.
    all: try done.
    all: try match goal with
             | H : negb (list_in _ _) = true |- _ => rewrite Hin' in H; discriminate H
             end.
    all: cbn [read_file] in *; congruence. }
  split; [done|]. rewrite Hrun. cbn [fst].
  set (st' := set_overlays_txt _ st).
  assert (applied_overlays st' = list_remove b (applied_overlays st)) as Happlied.
  { apply applied_overlays_after_write; [|done].
    apply list_remove_Forall, applied_overlays_carried. }
  assert (list_in b (applied_overlays st') = false) as Hgone.
  { apply list_in_false. rewrite Happlied. by apply list_remove_NoDup_not_elem. }
  assert (unpack_executed st' = true) as Hu' by done.
  assert (String.eqb (image_type st') "wic" = false) as Hty' by done.
  clearbody st'.
  apply wp_eq. unfold dto_remove_single.
  repeat wp_step.
  all: try done.
  all: match goal with
       | H : negb (list_in _ _) = false |- _ => rewrite Hgone in H; discriminate H
       end.
Qed.

(** The compiler rejects the source: exit code 1, and no test. *)
Lemma dto_apply_compile_failure_witness :
  dto_apply example_dtc_fail example_fdtoverlay_ok example_find_dtbs
    "overlays/a.dts" None ["device-trees/include"] false true example_state
  = (set_calls [call_build_dts "overlays/a.dts" ["device-trees/include"] (InTmp 0)]
       (set_tmp_files [Some ""] example_state),
     inl (SystemExit 1 ["error: cannot apply overlays/a.dts."])).
Proof.
  apply (dto_apply_compile_failure example_dtc_fail example_fdtoverlay_ok
           example_find_dtbs "overlays/a.dts" None ["device-trees/include"]
           false true example_state).
  - split; [reflexivity|]. vm_compute. discriminate.
  - right. apply list_in_false. vm_compute. reflexivity.
  - reflexivity.
Defined.

Lemma dto_apply_unknown_device_tree_witness :
  snd (dto_apply example_dtc example_fdtoverlay_ok example_find_dtbs
         "overlays/a.dts" None ["device-trees/include"] false false
         example_unknown_dtb_state)
  = inr tt.
Proof.
  destruct (dto_apply_unknown_device_tree example_dtc example_fdtoverlay_ok
              example_find_dtbs "overlays/a.dts" None ["device-trees/include"]
              false example_unknown_dtb_state "dtbo of overlays/a.dts")
    as [_ Hforce].
  - split; [reflexivity|]. vm_compute. discriminate.
  - right. apply list_in_false. vm_compute. reflexivity.
  - reflexivity.
  - reflexivity.
  - reflexivity.
  - exact Hforce.
Defined.

Lemma dto_apply_test_chain_witness :
  exists paths,
    Forall2 (fun b p => locate_overlay example_applied_state b = inr p)
            (list_remove "a.dtbo" (applied_overlays example_applied_state)) paths
    /\ calls (fst (dto_apply example_dtc example_fdtoverlay_ok example_find_dtbs
                    "overlays/a.dts" None ["device-trees/include"] true true
                    example_applied_state))
       = calls example_applied_state
         ++ [call_build_dts "overlays/a.dts" ["device-trees/include"]
               (InTmp (length (tmp_files example_applied_state)));
             call_modify_dtb (fst (current_dtb example_applied_state))
               (paths ++ [InTmp (length (tmp_files example_applied_state))])
               (InTmp (S (length (tmp_files example_applied_state))))].
Proof.
  apply (dto_apply_test_chain example_dtc example_fdtoverlay_ok example_find_dtbs
           "overlays/a.dts" None ["device-trees/include"] true
           example_applied_state).
  vm_compute. reflexivity.
Defined.

Lemma dto_apply_stages_compiled_blob_witness :
  exists blob,
    example_dtc "overlays/a.dts" ["device-trees/include"] = Some blob
    /\ read_file (InChanges "a.dtbo")
         (fst (dto_apply example_dtc example_fdtoverlay_ok example_find_dtbs
                 "overlays/a.dts" None ["device-trees/include"] false true
                 example_state))
       = Some blob.
Proof.
  destruct (dto_apply_stages_compiled_blob example_dtc example_fdtoverlay_ok
              example_find_dtbs "overlays/a.dts" None ["device-trees/include"]
              false true example_state
              (fst (dto_apply example_dtc example_fdtoverlay_ok example_find_dtbs
                      "overlays/a.dts" None ["device-trees/include"] false true
                      example_state)))
    as (blob & Hblob & Hstaged & _).
  - vm_compute. reflexivity.
  - exists blob. split; [exact Hblob|exact Hstaged].
Defined.

Lemma dto_apply_then_remove_restores_witness :
  exists st2,
    dto_remove_single "a.dtbo" true
      (fst (dto_apply example_dtc example_fdtoverlay_ok example_find_dtbs
              "overlays/a.dts" None ["device-trees/include"] false true
              example_state))
    = (st2, inr true)
    /\ applied_overlays st2 = applied_overlays example_state.
Proof.
  destruct (dto_apply_then_remove_restores example_dtc example_fdtoverlay_ok
              example_find_dtbs "overlays/a.dts" None ["device-trees/include"]
              false true true example_state
              (fst (dto_apply example_dtc example_fdtoverlay_ok example_find_dtbs
                      "overlays/a.dts" None ["device-trees/include"] false true
                      example_state)))
    as (st2 & Hrun & Happlied & _).
  - reflexivity.
  - apply list_in_false. vm_compute. reflexivity.
  - vm_compute. reflexivity.
  - exists st2. split; [exact Hrun|exact Happlied].
Defined.

Lemma do_dto_apply_again_is_refused_witness :
  do_dto_apply example_dtc example_fdtoverlay_ok example_find_dtbs
    {| dtos_path := Some "elsewhere/a.dts"; include_dirs := Some ["inc"];
       device_tree := None; force := true |}
    (fst (do_dto_apply example_dtc example_fdtoverlay_ok example_find_dtbs
            example_apply_args example_state))
  = (fst (do_dto_apply example_dtc example_fdtoverlay_ok example_find_dtbs
            example_apply_args example_state),
     inl (SystemExit 1 [already_applied_msg "a.dtbo"])).
Proof.
  apply (do_dto_apply_again_is_refused example_dtc example_fdtoverlay_ok
           example_find_dtbs example_apply_args
           {| dtos_path := Some "elsewhere/a.dts"; include_dirs := Some ["inc"];
              device_tree := None; force := true |}
           example_state).
  - reflexivity.
  - vm_compute. reflexivity.
  - reflexivity.
  - reflexivity.
Defined.

Lemma do_dto_apply_force_witness :
  snd (do_dto_apply example_dtc example_fdtoverlay_fail example_find_dtbs
         example_force_args example_unknown_dtb_state)
  = inr tt.
Proof.
  destruct (do_dto_apply_force example_dtc example_fdtoverlay_fail example_find_dtbs
              example_force_args example_unknown_dtb_state)
    as [[_ Hok] _].
  - reflexivity.
  - reflexivity.
  - apply Hok. split; [|split].
    + split; [reflexivity|]. vm_compute. discriminate.
    + apply list_in_false. vm_compute. reflexivity.
    + vm_compute. eexists. reflexivity.
Defined.

Lemma do_dto_remove_after_all_is_refused_witness :
  do_dto_remove {| all := false; dtob_basename := Some "a.dtbo" |}
    (fst (do_dto_remove {| all := true; dtob_basename := None |} example_applied_state))
  = (fst (do_dto_remove {| all := true; dtob_basename := None |} example_applied_state),
     inl (SystemExit 1 [already_not_applied_msg "a.dtbo"])).
Proof.
  apply (do_dto_remove_after_all_is_refused "a.dtbo" example_applied_state).
  - vm_compute. reflexivity.
  - discriminate.
Defined.

Lemma do_dto_status_reads_only_witness :
  fst (do_dto_status example_applied_state) = example_applied_state
  /\ head (match snd (do_dto_status example_applied_state) with
           | inr lines => lines
           | inl _ => []
           end)
     = Some "Enabled overlays over device tree imx8qm-apalis.dtb:".
Proof.
  destruct (do_dto_status_reads_only example_applied_state
              (fst (do_dto_status example_applied_state))
              (snd (do_dto_status example_applied_state)))
    as [Hst Hlines].
  - vm_compute. reflexivity.
  - split; [exact Hst|]. vm_compute. reflexivity.
Defined.

Lemma do_dto_status_after_apply_witness :
  exists before,
    do_dto_status example_state
    = (example_state, inr (status_header (current_dtb example_state) :: before))
    /\ do_dto_status
         (fst (do_dto_apply example_dtc example_fdtoverlay_ok example_find_dtbs
                 example_apply_args example_state))
       = (fst (do_dto_apply example_dtc example_fdtoverlay_ok example_find_dtbs
                 example_apply_args example_state),
          inr (status_header (current_dtb example_state) :: before ++ ["- a.dtbo"])).
Proof.
  apply (do_dto_status_after_apply example_dtc example_fdtoverlay_ok example_find_dtbs
           example_apply_args example_state).
  - reflexivity.
  - vm_compute. reflexivity.
Defined.

Lemma do_dto_status_after_remove_all_witness :
  do_dto_status
    (fst (do_dto_remove {| all := true; dtob_basename := None |} example_applied_state))
  = (fst (do_dto_remove {| all := true; dtob_basename := None |} example_applied_state),
     inr ["Enabled overlays over device tree imx8qm-apalis.dtb:"]).
Proof.
  apply (do_dto_status_after_remove_all example_applied_state).
  vm_compute. reflexivity.
Defined.

Lemma dto_remove_single_missing_blob_witness :
  dto_remove_single "ghost.dtbo" true example_ghost_state
  = (set_overlays_txt (Some (overlays_txt_line [])) example_ghost_state,
     inl (NotFound "ghost.dtbo")).
Proof.
  destruct (dto_remove_single_missing_blob "ghost.dtbo" true example_ghost_state)
    as [Hrun _].
  - split; [reflexivity|]. vm_compute. discriminate.
  - apply list_in_true. vm_compute. reflexivity.
  - apply (bool_decide_unpack _). vm_compute. exact I.
  - reflexivity.
  - reflexivity.
  - exact Hrun.
Defined.

Lemma do_dto_remove_bad_arguments_witness :
  do_dto_remove {| all := true; dtob_basename := Some "a.dtbo" |}
    example_applied_state
  = (example_applied_state, inl (SystemExit 1 [both_specified_msg])).
Proof.
  apply (do_dto_remove_bad_arguments
           {| all := true; dtob_basename := Some "a.dtbo" |} example_applied_state).
  reflexivity.
Defined.
(** * The references of a repository *)

Section get_reference_dict_facts.
Import ostree ostree_refs.

Implicit Types (s t : string) (refs : list (string * string)).

Lemma skip_digits_split s :
  exists a, s = a +:+ skip_digits s
            /\ Forall (fun a => is_digit a = true) (list_ascii_of_string a).
Proof.
  induction s as [|x s (a & Ha & Hd)]; cbn [skip_digits].
  - by exists "".
  - destruct (is_digit x) eqn:Hx.
    + exists (String x a). cbn [String.append list_ascii_of_string].
      split; [by rewrite <- Ha|by constructor].
    + by exists "".
Qed.

Lemma skip_digits_append a t :
  Forall (fun a => is_digit a = true) (list_ascii_of_string a) ->
  skip_digits (a +:+ t) = skip_digits t.
Proof.
  induction a as [|x a IH]; cbn [String.append list_ascii_of_string skip_digits];
    [done|].
  intros [Hx Ha]%Forall_cons. rewrite Hx. by apply IH.
Qed.

Lemma match_digits_append a t :
  decimal a -> match_digits (a +:+ t) = Some (skip_digits t).
Proof.
  intros [Hne Hd]. destruct a as [|x a]; [done|].
  cbn [String.append list_ascii_of_string match_digits] in *.
  apply Forall_cons in Hd as [Hx Ha]. rewrite Hx. f_equal.
  by apply skip_digits_append.
Qed.

Lemma match_digits_Some s r :
  match_digits s = Some r -> exists a, decimal a /\ s = a +:+ r.
Proof.
  destruct s as [|x s]; cbn [match_digits]; [done|].
  destruct (is_digit x) eqn:Hx; [|done].
  intros [= <-]. destruct (skip_digits_split s) as (a & Ha & Hd).
  exists (String x a). cbn [String.append list_ascii_of_string].
  split; [split; [done|by constructor]|by rewrite <- Ha].
Qed.

Theorem is_generated_ref_pattern ref_name :
  is_generated_ref ref_name = true
  <-> exists a b c rest,
        decimal a /\ decimal b /\ decimal c
        /\ ref_name = "ostree/" +:+ a +:+ "/" +:+ b +:+ "/" +:+ c +:+ rest.
Proof.
  unfold is_generated_ref. split.
  - destruct (strip_prefix "ostree/" ref_name) as [s1|] eqn:H1; [|done].
    apply strip_prefix_Some in H1 as ->.
    destruct (match_digits s1) as [[|x s2]|] eqn:H2; try done.
    destruct (Ascii.eqb_spec x "/") as [->|Hx];
      [|by destruct x as [[] [] [] [] [] [] [] []]].
    destruct (match_digits s2) as [[|y s3]|] eqn:H3; try done.
    destruct (Ascii.eqb_spec y "/") as [->|Hy];
      [|by destruct y as [[] [] [] [] [] [] [] []]].
    destruct (match_digits s3) as [rest|] eqn:H4; [|done].
    intros _.
    apply match_digits_Some in H2 as (a & Ha & ->).
    apply match_digits_Some in H3 as (b & Hb & ->).
    apply match_digits_Some in H4 as (c & Hc & ->).
    by exists a, b, c, rest.
  - intros (a & b & c & rest & Ha & Hb & Hc & ->).
    rewrite strip_prefix_append.
    rewrite (match_digits_append a _ Ha). cbn [String.append skip_digits is_digit].
    rewrite (match_digits_append b _ Hb). cbn [String.append skip_digits is_digit].
    by rewrite (match_digits_append c _ Hc).
Qed.

Lemma last_cons_Some {A} (x : A) l :
  last (x :: l) = Some (default x (last l)).
Proof.
  revert x. induction l as [|y l IH]; intros x; [done|].
  change (last (x :: y :: l)) with (last (y :: l)). by rewrite !IH.
Qed.

Lemma fold_add_ref_lookup refs (d : gmap string string) k :
  fold_left add_ref refs d !! k
  = match last (List.filter (names_key k) refs) with
    | Some ref => Some (snd ref)
    | None => d !! k
    end.
Proof.
  revert d. induction refs as [|[n c] refs IH]; intros d; [done|].
  cbn [fold_left List.filter]. rewrite IH. unfold add_ref at 1, names_key at 2.
  cbn [fst snd].
  destruct (is_generated_ref n) eqn:Hgen; cbn [negb andb]; [done|].
  destruct (String.eqb_spec (short_ref_name n) k) as [->|Hk].
  - rewrite last_cons_Some. rewrite lookup_insert_eq.
    by destruct (last (List.filter _ refs)).
  - by rewrite lookup_insert_ne.
Qed.

Theorem get_reference_dict_lookup list_refs repopath base_csum refs k :
  list_refs repopath = Some refs ->
  exists ref_dict,
    get_reference_dict list_refs repopath base_csum = inr ref_dict
    /\ ref_dict !! k
       = match last (List.filter (names_key k) refs) with
         | Some ref => Some (snd ref)
         | None => if String.eqb k "base" then base_csum else None
         end.
Proof.
  intros Hrefs. unfold get_reference_dict. rewrite Hrefs.
  eexists. split; [done|]. rewrite fold_add_ref_lookup.
  destruct (last (List.filter _ refs)); [done|].
  destruct (String.eqb_spec k "base") as [->|Hk].
  - destruct base_csum; [by rewrite lookup_singleton_eq|done].
  - destruct base_csum; [|done].
    by rewrite lookup_singleton_ne.
Qed.

Lemma split_once_append c s t :
  has_char c s = false -> split_once c (s +:+ String c t) = Some (s, t).
Proof.
  induction s as [|a s IH]; cbn [has_char String.append split_once].
  - intros _. by rewrite Ascii.eqb_refl.
  - intros [Ha Hs]%orb_false_elim. by rewrite Ha, (IH Hs).
Qed.

Lemma is_generated_ref_remote remote ref_name :
  has_char "/" remote = false ->
  is_generated_ref (remote +:+ ":" +:+ ref_name) = false.
Proof.
  intros Hremote. unfold is_generated_ref.
  destruct (strip_prefix "ostree/" _) as [v|] eqn:Hpre; [|done].
  apply strip_prefix_Some in Hpre.
  destruct remote as [|x0 [|x1 [|x2 [|x3 [|x4 [|x5 [|x6 r]]]]]]];
    cbn [String.append] in Hpre; try discriminate Hpre.
  injection Hpre as -> -> -> -> -> -> -> _. discriminate Hremote.
Qed.

Theorem get_reference_dict_remote_ref list_refs repopath base_csum refs
    remote ref_name csum :
  has_char "/" remote = false ->
  has_char ":" remote = false ->
  list_refs repopath = Some (refs ++ [(remote +:+ ":" +:+ ref_name, csum)]) ->
  exists ref_dict,
    get_reference_dict list_refs repopath base_csum = inr ref_dict
    /\ ref_dict !! lstrip ref_name = Some csum.
Proof.
  intros Hsep Hcolon Hrefs. unfold get_reference_dict. rewrite Hrefs.
  eexists. split; [done|].
  rewrite fold_left_app. cbn [fold_left]. unfold add_ref at 1. cbn [fst snd].
  rewrite is_generated_ref_remote by done.
  unfold short_ref_name, after_first.
  change (":" +:+ ref_name) with (String ":" ref_name).
  rewrite (split_once_append ":" remote ref_name Hcolon).
  apply lookup_insert_eq.
Qed.

Theorem get_reference_dict_ignores_generated list_refs repopath base_csum refs :
  list_refs repopath = Some refs ->
  get_reference_dict list_refs repopath base_csum
  = get_reference_dict
      (fun _ => Some (List.filter (fun ref => negb (is_generated_ref (fst ref))) refs))
      repopath base_csum.
Proof.
  intros Hrefs. unfold get_reference_dict. rewrite Hrefs. f_equal. clear Hrefs.
  generalize (match base_csum with
              | Some csum => ({[OSTREE_BASE_REF := csum]} : gmap string string)
              | None => ∅
              end).
  induction refs as [|[n c] refs IH]; intros d; [done|].
  cbn [fold_left List.filter fst]. unfold add_ref at 2. cbn [fst snd].
  destruct (is_generated_ref n) eqn:Hgen; cbn [negb].
  - apply IH.
  - cbn [fold_left]. unfold add_ref at 3. cbn [fst snd]. rewrite Hgen. apply IH.
Qed.

End get_reference_dict_facts.
